(** * The Exoscale kubeconfig store of kubeswitch

    A shallow embedding of [pkg/store/kubeconfig_store_exoscale.go]:
    the discovery pass [StartSearch], the credential lookup
    [GetKubeconfigForPath] and the renaming of the cluster, the context and
    the current-context of the kubeconfig it returns.

    Go maps are [gmap]s.  A [range] loop over a Go map visits the entries in
    an order the language leaves open; a [RangeOrder] is one such order.
    The channel, the logger and the requests sent to the Exoscale API are
    lists that only grow; the API itself is a transition function on a state
    the store cannot see. *)

From Stdlib Require Import String Ascii List.
From stdpp Require Import base option list gmap strings fin_maps.

Local Open Scope string_scope.
Local Open Scope list_scope.

(** ** Go maps and their iteration order *)

(** The order in which [for k, v := range m] visits a map: some enumeration
    of the entries, each one once. *)
Record RangeOrder (V : Type) := MkRangeOrder {
  range :> gmap string V → list (string * V);
  range_perm : ∀ m, range m ≡ₚ map_to_list m
}.
Arguments range {V} _ _.
Arguments range_perm {V} _ _.

(** The order stdpp enumerates a map in is one of them. *)
Definition canonicalOrder (V : Type) : RangeOrder V :=
  MkRangeOrder V map_to_list (λ m, reflexivity (map_to_list m)).

(** ** The kubeconfig document (client-go's [api.Config])

    The store handles the document [clientcmd.Load] returns.  Its [Clusters],
    [AuthInfos] and [Contexts] fields are maps from names to pointers;
    [clientcmd.Load] allocates one object for each entry, so that no two
    names share one, and the maps are modelled by value.  What a cluster
    entry, a user entry, the preferences and the extensions hold is never
    inspected by the store: they are type parameters. *)

Module Context.
Record t (Ext : Type) := Make {
  LocationOfOrigin : string;
  Cluster : string;
  AuthInfo : string;
  Namespace : string;
  Extensions : Ext
}.
Arguments Make {Ext}.
Arguments LocationOfOrigin {Ext}.
Arguments Cluster {Ext}.
Arguments AuthInfo {Ext}.
Arguments Namespace {Ext}.
Arguments Extensions {Ext}.

(** [ctx.Cluster = name] *)
Definition setCluster {Ext} (name : string) (ctx : t Ext) : t Ext :=
  Make (LocationOfOrigin ctx) name (AuthInfo ctx) (Namespace ctx)
       (Extensions ctx).
End Context.

Module Config.
Record t (C A P Ext : Type) := Make {
  Kind : string;
  APIVersion : string;
  Preferences : P;
  Clusters : gmap string C;
  AuthInfos : gmap string A;
  Contexts : gmap string (Context.t Ext);
  CurrentContext : string;
  Extensions : Ext
}.
Arguments Make {C A P Ext}.
Arguments Kind {C A P Ext}.
Arguments APIVersion {C A P Ext}.
Arguments Preferences {C A P Ext}.
Arguments Clusters {C A P Ext}.
Arguments AuthInfos {C A P Ext}.
Arguments Contexts {C A P Ext}.
Arguments CurrentContext {C A P Ext}.
Arguments Extensions {C A P Ext}.

Section Setters.
Context {C A P Ext : Type}.

Definition setClusters (m : gmap string C) (cfg : t C A P Ext) : t C A P Ext :=
  Make (Kind cfg) (APIVersion cfg) (Preferences cfg) m (AuthInfos cfg)
       (Contexts cfg) (CurrentContext cfg) (Extensions cfg).

Definition setContexts (m : gmap string (Context.t Ext)) (cfg : t C A P Ext)
  : t C A P Ext :=
  Make (Kind cfg) (APIVersion cfg) (Preferences cfg) (Clusters cfg)
       (AuthInfos cfg) m (CurrentContext cfg) (Extensions cfg).

Definition setCurrentContext (name : string) (cfg : t C A P Ext) : t C A P Ext :=
  Make (Kind cfg) (APIVersion cfg) (Preferences cfg) (Clusters cfg)
       (AuthInfos cfg) (Contexts cfg) name (Extensions cfg).
End Setters.
End Config.

(** ** Renaming the cluster, the context and the current-context
    ([GetKubeconfigForPath], from [var oldClusterName string] to the
    current-context test) *)

Section Rename.
Context {C A P Ext : Type}.
Variable rangeClusters : RangeOrder C.

Abbreviation Cfg := (Config.t C A P Ext).

(** [var oldClusterName string; for k := range cfg.Clusters
    { oldClusterName = k; break }]: the first key the loop visits, and the
    zero value of [string] when the map has no entry. *)
Definition firstKey (visited : list (string * C)) : string :=
  match visited with
  | [] => ""
  | (k, _) :: _ => k
  end.

Definition pickOldClusterName (cfg : Cfg) : string :=
  firstKey (rangeClusters (Config.Clusters cfg)).

(** 1) [if c, ok := cfg.Clusters[old]; ok { cfg.Clusters[new] = c;
    delete(cfg.Clusters, old) }] *)
Definition moveCluster (old new : string) (cfg : Cfg) : Cfg :=
  match Config.Clusters cfg !! old with
  | Some c =>
      Config.setClusters (delete old (<[new := c]> (Config.Clusters cfg))) cfg
  | None => cfg
  end.

(** 2) [if ctx, ok := cfg.Contexts[old]; ok { ctx.Cluster = new;
    cfg.Contexts[new] = ctx; delete(cfg.Contexts, old) }] *)
Definition moveContext (old new : string) (cfg : Cfg) : Cfg :=
  match Config.Contexts cfg !! old with
  | Some ctx =>
      Config.setContexts
        (delete old (<[new := Context.setCluster new ctx]> (Config.Contexts cfg)))
        cfg
  | None => cfg
  end.

(** 3) [if cfg.CurrentContext == old { cfg.CurrentContext = new }] *)
Definition moveCurrentContext (old new : string) (cfg : Cfg) : Cfg :=
  if decide (Config.CurrentContext cfg = old)
  then Config.setCurrentContext new cfg
  else cfg.

Definition renameFrom (old new : string) (cfg : Cfg) : Cfg :=
  moveCurrentContext old new (moveContext old new (moveCluster old new cfg)).

Definition rewriteIdentity (clusterName : string) (cfg : Cfg) : Cfg :=
  renameFrom (pickOldClusterName cfg) clusterName cfg.
End Rename.

(** ** Paths: [strings.SplitN(path, "/", 2)] *)

(** [cut sep s] splits [s] around the first [sep]; [None] when [s] has no
    [sep] (Go's [strings.Index] returning -1). *)
Fixpoint cut (sep : ascii) (s : string) : option (string * string) :=
  match s with
  | EmptyString => None
  | String c rest =>
      if Ascii.eqb c sep then Some (EmptyString, rest)
      else match cut sep rest with
           | Some (before, after) => Some (String c before, after)
           | None => None
           end
  end.

(** [strings.SplitN(s, sep, n)] for a one-byte separator and [n >= 0]: at
    most [n] pieces, the last one being the unsplit remainder. *)
Fixpoint SplitN (s : string) (sep : ascii) (n : nat) : list string :=
  match n with
  | 0 => []
  | S n' =>
      match n' with
      | 0 => [s]
      | S _ =>
          match cut sep s with
          | None => [s]
          | Some (before, after) => before :: SplitN after sep n'
          end
      end
  end.

(** The number of separators in a path. *)
Fixpoint countSep (sep : ascii) (s : string) : nat :=
  match s with
  | EmptyString => 0
  | String c rest => (if Ascii.eqb c sep then 1 else 0) + countSep sep rest
  end.

(** ** Records of the Exoscale API and of the store

    [v3.UUID], [v3.ZoneName] and [v3.Endpoint] are Go string types. *)

Module Zone.
Record t := Make { Name : string; APIEndpoint : string }.
End Zone.

Module SKSCluster.
Record t := Make { ID : string; Name : string }.
End SKSCluster.

Module SKSKubeconfigRequest.
Record t := Make { Groups : list string; User : string; Ttl : Z }.
End SKSKubeconfigRequest.

(** One discovered SKS cluster, including zone info. *)
Module ExoscaleKube.
Record t := Make {
  ID : string;
  Name : string;
  ZoneName : string;
  ZoneEndpoint : string
}.
End ExoscaleKube.

Global Instance Zone_eq_dec : EqDecision Zone.t.
Proof. solve_decision. Defined.
Global Instance SKSCluster_eq_dec : EqDecision SKSCluster.t.
Proof. solve_decision. Defined.
Global Instance SKSKubeconfigRequest_eq_dec : EqDecision SKSKubeconfigRequest.t.
Proof. solve_decision. Defined.
Global Instance ExoscaleKube_eq_dec : EqDecision ExoscaleKube.t.
Proof. solve_decision. Defined.

(** A Go [(value, error)] pair of which one side is set. *)
Inductive result (E T : Type) :=
| Ok (v : T)
| Fail (e : E).
Arguments Ok {E T} v.
Arguments Fail {E T} e.

(** [result E] is an error monad: a failing step ends the function. *)
Global Instance result_ret {E} : MRet (result E) := λ _ v, Ok v.
Global Instance result_bind {E} : MBind (result E) := λ _ _ k r,
  match r with
  | Ok v => k v
  | Fail e => Fail e
  end.

(** [if err != nil { return nil, fmt.Errorf(..., err) }] *)
Definition orWrap {E E' T} (wrap : E → E') (r : result E T) : result E' T :=
  match r with
  | Ok v => Ok v
  | Fail e => Fail (wrap e)
  end.

(** The errors the store makes with [fmt.Errorf], one constructor for each
    format string; [cause] is the error wrapped with [%w]. *)
Inductive StoreError (Err : Type) :=
| ListZonesFailed (cause : Err)
    (* "failed to list zones: %w" *)
| MalformedPath (path : string)
    (* "invalid cluster path %q (expected 'zoneName/clusterName')" *)
| ClusterNotFound (path : string)
    (* "no cluster found for %q" *)
| CredentialGenerationFailed (path : string) (cause : Err)
    (* "failed to generate kubeconfig for cluster %q: %w" *)
| DecodeFailed (path : string) (cause : Err)
    (* "failed to decode base64 kubeconfig for cluster %q: %w" *)
| ParseFailed (cause : Err)
    (* "parse kubeconfig: %w" *)
| SerializeFailed (cause : Err)
    (* "marshal updated kubeconfig: %w" *).
Arguments ListZonesFailed {Err}.
Arguments MalformedPath {Err}.
Arguments ClusterNotFound {Err}.
Arguments CredentialGenerationFailed {Err}.
Arguments DecodeFailed {Err}.
Arguments ParseFailed {Err}.
Arguments SerializeFailed {Err}.

(** [storetypes.SearchResult]; [Error] is [None] for Go's [nil]. *)
Module SearchResult.
Record t (Err : Type) := Make {
  KubeconfigPath : string;
  Error : option (StoreError Err)
}.
Arguments Make {Err}.
Arguments KubeconfigPath {Err}.
Arguments Error {Err}.
End SearchResult.

(** What the logger has written. *)
Inductive Level := DebugLevel | WarnLevel.

Global Instance Level_eq_dec : EqDecision Level.
Proof. solve_decision. Defined.

Module LogEntry.
Record t (Err : Type) := Make {
  level : Level;
  withError : option Err;
  message : string
}.
Arguments Make {Err}.
Arguments level {Err}.
Arguments withError {Err}.
Arguments message {Err}.
End LogEntry.

(** The requests the client has sent. *)
Inductive Request :=
| ReqListZones
| ReqListSKSClusters (endpoint : string)
| ReqGenerateSKSClusterKubeconfig
    (endpoint id : string) (req : SKSKubeconfigRequest.t).

(** The Exoscale API as the client sees it: each call may succeed or fail
    and may change the state of the service. *)
Record API (World Err : Type) := MkAPI {
  ListZones : World → result Err (list Zone.t) * World;
  ListSKSClusters : string → World → result Err (list SKSCluster.t) * World;
  GenerateSKSClusterKubeconfig :
    string → string → SKSKubeconfigRequest.t → World → result Err string * World
}.
Arguments ListZones {World Err}.
Arguments ListSKSClusters {World Err}.
Arguments GenerateSKSClusterKubeconfig {World Err}.

(** The library functions applied to the kubeconfig: [base64.StdEncoding
    .DecodeString], [clientcmd.Load] and [clientcmd.Write].  Byte slices are
    strings. *)
Record Codec (Err C A P Ext : Type) := MkCodec {
  DecodeString : string → result Err string;
  Load : string → result Err (Config.t C A P Ext);
  Write : Config.t C A P Ext → result Err string
}.
Arguments DecodeString {Err C A P Ext}.
Arguments Load {Err C A P Ext}.
Arguments Write {Err C A P Ext}.

(** The client: the service behind it and the requests sent so far. *)
Module Client.
Record t (World : Type) := Make {
  remote : World;
  sent : list Request
}.
Arguments Make {World}.
Arguments remote {World}.
Arguments sent {World}.
End Client.

Module ExoscaleStore.
Record t (World Err : Type) := Make {
  Logger : list (LogEntry.t Err);
  Client : Client.t World;
  DiscoveredClusters : gmap string ExoscaleKube.t
}.
Arguments Make {World Err}.
Arguments Logger {World Err}.
Arguments Client {World Err}.
Arguments DiscoveredClusters {World Err}.
End ExoscaleStore.

(** ** The store's two operations *)

Section Store.
Context {World Err C A P Ext : Type}.
Variable api : API World Err.
Variable codec : Codec Err C A P Ext.
Variable rangeIndex : RangeOrder ExoscaleKube.t.
Variable rangeClusters : RangeOrder C.

Abbreviation Store := (ExoscaleStore.t World Err).
Abbreviation Event := (SearchResult.t Err).

Definition withClient (c : Client.t World) (s : Store) : Store :=
  ExoscaleStore.Make (ExoscaleStore.Logger s) c
                     (ExoscaleStore.DiscoveredClusters s).

Definition withIndex (m : gmap string ExoscaleKube.t) (s : Store) : Store :=
  ExoscaleStore.Make (ExoscaleStore.Logger s) (ExoscaleStore.Client s) m.

Definition logged (e : LogEntry.t Err) (s : Store) : Store :=
  ExoscaleStore.Make (ExoscaleStore.Logger s ++ [e]) (ExoscaleStore.Client s)
                     (ExoscaleStore.DiscoveredClusters s).

(** [s.Logger.Debug(msg)] and [s.Logger.WithError(err).Warnf(msg)] *)
Definition logDebug (msg : string) : Store → Store :=
  logged (LogEntry.Make DebugLevel None msg).
Definition logWarn (err : Err) (msg : string) : Store → Store :=
  logged (LogEntry.Make WarnLevel (Some err) msg).

(** A call sends its request and gets the answer of the service. *)
Definition send {T} (req : Request) (call : World → result Err T * World)
    (c : Client.t World) : result Err T * Client.t World :=
  let '(resp, w) := call (Client.remote c) in
  (resp, Client.Make w (Client.sent c ++ [req])).

Definition callListZones : Client.t World → _ :=
  send ReqListZones (ListZones api).

(** [s.Client.WithEndpoint(endpoint).ListSKSClusters(ctx)] *)
Definition callListSKSClusters (endpoint : string) : Client.t World → _ :=
  send (ReqListSKSClusters endpoint) (ListSKSClusters api endpoint).

(** [s.Client.WithEndpoint(endpoint).GenerateSKSClusterKubeconfig(ctx, id, req)] *)
Definition callGenerateSKSClusterKubeconfig
    (endpoint id : string) (req : SKSKubeconfigRequest.t) : Client.t World → _ :=
  send (ReqGenerateSKSClusterKubeconfig endpoint id req)
       (GenerateSKSClusterKubeconfig api endpoint id req).

(** *** StartSearch *)

Definition discoveredKube (zone : Zone.t) (cluster : SKSCluster.t) : ExoscaleKube.t :=
  ExoscaleKube.Make (SKSCluster.ID cluster) (SKSCluster.Name cluster)
                    (Zone.Name zone) (Zone.APIEndpoint zone).

(** [fmt.Sprintf("%s/%s", zone.Name, cluster.Name)] *)
Definition kubeconfigPath (zone : Zone.t) (cluster : SKSCluster.t) : string :=
  Zone.Name zone +:+ "/" +:+ SKSCluster.Name cluster.

Definition found (zone : Zone.t) (cluster : SKSCluster.t) : Event :=
  SearchResult.Make (kubeconfigPath zone cluster) None.

(** The body of [for _, cluster := range clusters.SKSClusters]. *)
Definition recordCluster (zone : Zone.t) (acc : Store * list Event)
    (cluster : SKSCluster.t) : Store * list Event :=
  let '(s, channel) := acc in
  let s :=
    withIndex (<[SKSCluster.ID cluster := discoveredKube zone cluster]>
                 (ExoscaleStore.DiscoveredClusters s)) s in
  let s :=
    logDebug ("Discovered SKS cluster name: " +:+ SKSCluster.Name cluster
              +:+ " and id: " +:+ SKSCluster.ID cluster
              +:+ " in zone " +:+ Zone.Name zone) s in
  (s, channel ++ [found zone cluster]).

(** The body of [for _, zone := range zonesResp.Zones]. *)
Definition searchZone (acc : Store * list Event) (zone : Zone.t)
    : Store * list Event :=
  let '(s, channel) := acc in
  let '(resp, client) :=
    callListSKSClusters (Zone.APIEndpoint zone) (ExoscaleStore.Client s) in
  let s := withClient client s in
  match resp with
  | Fail err =>
      (logWarn err ("Failed to list SKS clusters for zone " +:+ Zone.Name zone) s,
       channel)
  | Ok clusters =>
      if decide (length clusters = 0)
      then (logDebug ("No SKS clusters found in zone " +:+ Zone.Name zone) s,
            channel)
      else foldl (recordCluster zone) (s, channel) clusters
  end.

(** [StartSearch] sends on [channel]; the result is the store and the
    channel's content after the call. *)
Definition StartSearch (s : Store) (channel : list Event) : Store * list Event :=
  let s := logDebug "Exoscale: start search" s in
  let '(zonesResp, client) := callListZones (ExoscaleStore.Client s) in
  let s := withClient client s in
  match zonesResp with
  | Fail err =>
      (s, channel ++ [SearchResult.Make "" (Some (ListZonesFailed err))])
  | Ok zones =>
      if decide (length zones = 0)
      then (logDebug "No Exoscale zones found" s, channel)
      else foldl searchZone (s, channel) zones
  end.

(** *** GetKubeconfigForPath *)

(** [for _, c := range s.DiscoveredClusters { if string(c.ZoneName) ==
    zoneName && c.Name == clusterName { match = &c; break } }] *)
Fixpoint findMatch (zoneName clusterName : string)
    (visited : list (string * ExoscaleKube.t)) : option ExoscaleKube.t :=
  match visited with
  | [] => None
  | (_, c) :: rest =>
      if decide (ExoscaleKube.ZoneName c = zoneName
                 ∧ ExoscaleKube.Name c = clusterName)
      then Some c
      else findMatch zoneName clusterName rest
  end.

Definition kubeconfigRequest : SKSKubeconfigRequest.t :=
  SKSKubeconfigRequest.Make ["system:masters"] "default" 2592000.

(** From the answer of the API to the bytes returned. *)
Definition materialize (path clusterName : string) (resp : result Err string)
    : result (StoreError Err) string :=
  kubeconfig ← orWrap (CredentialGenerationFailed path) resp;
  rawKubeconfig ← orWrap (DecodeFailed path) (DecodeString codec kubeconfig);
  cfg ← orWrap ParseFailed (Load codec rawKubeconfig);
  orWrap SerializeFailed (Write codec (rewriteIdentity rangeClusters clusterName cfg)).

Definition GetKubeconfigForPath (path : string) (_ : gmap string string)
    (s : Store) : result (StoreError Err) string * Store :=
  match SplitN path "/" 2 with
  | [zoneName; clusterName] =>
      match findMatch zoneName clusterName
              (rangeIndex (ExoscaleStore.DiscoveredClusters s)) with
      | None => (Fail (ClusterNotFound path), s)
      | Some matched =>
          let '(resp, client) :=
            callGenerateSKSClusterKubeconfig
              (ExoscaleKube.ZoneEndpoint matched) (ExoscaleKube.ID matched)
              kubeconfigRequest (ExoscaleStore.Client s) in
          (materialize path clusterName resp, withClient client s)
      end
  | _ => (Fail (MalformedPath path), s)   (* len(parts) != 2 *)
  end.

(** *** What the service answers during a pass

    The answers to the [ListSKSClusters] calls of a pass over [zones],
    the service being in state [w] before the first of them. *)
Fixpoint listings (zones : list Zone.t) (w : World)
    : list (Zone.t * result Err (list SKSCluster.t)) :=
  match zones with
  | [] => []
  | zone :: rest =>
      let '(resp, w') := ListSKSClusters api (Zone.APIEndpoint zone) w in
      (zone, resp) :: listings rest w'
  end.

(** The clusters of the zones whose listing did not fail, with their zone,
    in the order of the answers. *)
Definition listedClusters (answers : list (Zone.t * result Err (list SKSCluster.t)))
    : list (Zone.t * SKSCluster.t) :=
  '(zone, resp) ← answers;
  match resp with
  | Ok clusters => pair zone <$> clusters
  | Fail _ => []
  end.

(** The zones whose listing failed, with the failure. *)
Definition failedZones (answers : list (Zone.t * result Err (list SKSCluster.t)))
    : list (Zone.t * Err) :=
  '(zone, resp) ← answers;
  match resp with
  | Ok _ => []
  | Fail err => [(zone, err)]
  end.

Definition warnings (log : list (LogEntry.t Err)) : list (LogEntry.t Err) :=
  filter (λ e, LogEntry.level e = WarnLevel) log.
End Store.

(** ** Intact cross-references of a kubeconfig document *)

Section CrossReferences.
Context {C A P Ext : Type}.

(** Every context names a cluster of the document. *)
Definition contextsResolve (cfg : Config.t C A P Ext) : Prop :=
  map_Forall (λ _ ctx, is_Some (Config.Clusters cfg !! Context.Cluster ctx))
             (Config.Contexts cfg).

(** A current-context that is set names a context of the document. *)
Definition currentContextResolves (cfg : Config.t C A P Ext) : Prop :=
  Config.CurrentContext cfg ≠ "" →
  is_Some (Config.Contexts cfg !! Config.CurrentContext cfg).

Definition crossRefsOk (cfg : Config.t C A P Ext) : Prop :=
  contextsResolve cfg ∧ currentContextResolves cfg.

(** The convention of the kubeconfigs Exoscale generates: a context that
    names the cluster [old] is itself named [old]. *)
Definition contextMirrorsCluster (old : string) (cfg : Config.t C A P Ext) : Prop :=
  map_Forall (λ name ctx, Context.Cluster ctx = old → name = old)
             (Config.Contexts cfg).
End CrossReferences.

(** ** Concrete documents *)

(** The kubeconfig of the rename example: cluster, context and
    current-context all called [abc-123]. *)
Definition exoscaleDoc : Config.t string string unit unit :=
  Config.Make "Config" "v1" ()
    {["abc-123" := "https://abc-123.sks-ch-gva-2.exo.io"]}
    {["default" := "client-certificate-data"]}
    {["abc-123" := Context.Make "" "abc-123" "default" "" ()]}
    "abc-123" ().

(** A kubeconfig whose one context has a name of its own. *)
Definition adminDoc : Config.t string string unit unit :=
  Config.Make "Config" "v1" ()
    {["abc-123" := "https://abc-123.sks-ch-gva-2.exo.io"]}
    {["default" := "client-certificate-data"]}
    {["admin" := Context.Make "" "abc-123" "default" "" ()]}
    "admin" ().

(** What [clientcmd.Load] makes of an empty payload: no cluster, no context,
    no user, no current-context. *)
Definition emptyDoc : Config.t string string unit unit :=
  Config.Make "" "" () ∅ ∅ ∅ "" ().

(** ** The index after a pass, and the warnings of a pass *)

(** The index after the clusters [entries] were recorded in this order. *)
Definition recordAll (entries : list (Zone.t * SKSCluster.t))
    (index : gmap string ExoscaleKube.t) : gmap string ExoscaleKube.t :=
  foldl (λ m '(zone, cluster),
           <[SKSCluster.ID cluster := discoveredKube zone cluster]> m)
        index entries.

(** The warning written for a zone whose listing failed. *)
Definition zoneWarning {Err} (failure : Zone.t * Err) : LogEntry.t Err :=
  LogEntry.Make WarnLevel (Some failure.2)
    ("Failed to list SKS clusters for zone " +:+ Zone.Name failure.1).

(** ** Concrete services and stores *)

(** A service that answers the zone listing with [zones] and the cluster
    listing of an endpoint with [clusters endpoint], hands out the same
    payload for every cluster, and counts the calls it served. *)
Definition scriptedAPI (zones : result string (list Zone.t))
    (clusters : string → result string (list SKSCluster.t)) : API nat string :=
  MkAPI nat string
    (λ served, (zones, S served))
    (λ endpoint served, (clusters endpoint, S served))
    (λ _ _ _ served, (Ok "a3ViZWNvbmZpZw==", S served)).

Definition gva2 : Zone.t :=
  Zone.Make "ch-gva-2" "https://api-ch-gva-2.exoscale.com/v2".
Definition fra1 : Zone.t :=
  Zone.Make "de-fra-1" "https://api-de-fra-1.exoscale.com/v2".

(** The zone listing fails. *)
Definition downAPI : API nat string :=
  scriptedAPI (Fail "403 Forbidden") (λ _, Ok []).

(** Two zones; the listing of the first fails, the second has two clusters. *)
Definition partialAPI : API nat string :=
  scriptedAPI (Ok [gva2; fra1])
    (λ endpoint,
       if decide (endpoint = Zone.APIEndpoint gva2) then Fail "timeout"
       else Ok [SKSCluster.Make "id-2" "prod"; SKSCluster.Make "id-3" "staging"]).

(** Two zones, three clusters, each with an id of its own. *)
Definition healthyAPI : API nat string :=
  scriptedAPI (Ok [gva2; fra1])
    (λ endpoint,
       if decide (endpoint = Zone.APIEndpoint gva2)
       then Ok [SKSCluster.Make "id-1" "prod"]
       else Ok [SKSCluster.Make "id-2" "prod"; SKSCluster.Make "id-3" "staging"]).

(** Two zones that each list a cluster under the id [id-1]. *)
Definition sameIdAPI : API nat string :=
  scriptedAPI (Ok [gva2; fra1])
    (λ endpoint,
       if decide (endpoint = Zone.APIEndpoint gva2)
       then Ok [SKSCluster.Make "id-1" "prod"]
       else Ok [SKSCluster.Make "id-1" "staging"]).

(** One zone that lists two clusters called [prod]. *)
Definition sameNameAPI : API nat string :=
  scriptedAPI (Ok [gva2])
    (λ _, Ok [SKSCluster.Make "id-1" "prod"; SKSCluster.Make "id-2" "prod"]).

(** A codec that takes the payload as it is, reads every payload as
    [exoscaleDoc] and writes a document as its current-context. *)
Definition plainCodec : Codec string string string unit unit :=
  MkCodec string string string unit unit
    (λ payload, Ok payload)
    (λ _, Ok exoscaleDoc)
    (λ cfg, Ok (Config.CurrentContext cfg)).

(** The same codec reading every payload as [emptyDoc]. *)
Definition emptyPayloadCodec : Codec string string string unit unit :=
  MkCodec string string string unit unit
    (λ payload, Ok payload)
    (λ _, Ok emptyDoc)
    (λ cfg, Ok (Config.CurrentContext cfg)).

(** The store [NewExoscaleStore] returns: nothing logged, nothing sent, an
    empty index. *)
Definition newStore : ExoscaleStore.t nat string :=
  ExoscaleStore.Make [] (Client.Make 0 []) ∅.

(** A store that has discovered the cluster [prod] of zone [ch-gva-2]. *)
Definition prodStore : ExoscaleStore.t nat string :=
  ExoscaleStore.Make [] (Client.Make 0 [])
    {["id-1" := ExoscaleKube.Make "id-1" "prod" (Zone.Name gva2)
                  (Zone.APIEndpoint gva2)]}.

(** ** Construction and identity of the store

    [types.KubeconfigStore] and [types.StoreConfigExoscale] are declared in
    the [types] package; of the first, the store reads the fields [ID],
    [ShowPrefix] and [Config] ([nil] is [None]).  The Go struct
    [ExoscaleStore] also holds this configuration, which neither
    [StartSearch] nor [GetKubeconfigForPath] reads: it is kept beside the
    fields they use. *)

Module KubeconfigStore.
Record t (Raw : Type) := Make {
  ID : option string;
  ShowPrefix : option bool;
  Config : option Raw
}.
Arguments Make {Raw}.
Arguments ID {Raw}.
Arguments ShowPrefix {Raw}.
Arguments Config {Raw}.
End KubeconfigStore.

Module StoreConfigExoscale.
Record t := Make {
  ExoscaleAPIKey : string;
  ExoscaleSecretKey : string
}.
End StoreConfigExoscale.

(** What [NewExoscaleStore] calls: [yaml.Marshal], [yaml.Unmarshal] into a
    zero [StoreConfigExoscale], and [v3.NewClient] on the static credentials
    made of the two keys. *)
Record Setup (World Err Raw : Type) := MkSetup {
  Marshal : Raw → result Err string;
  Unmarshal : string → result Err StoreConfigExoscale.t;
  NewClient : string → string → result Err World
}.
Arguments Marshal {World Err Raw}.
Arguments Unmarshal {World Err Raw}.
Arguments NewClient {World Err Raw}.

(** The errors of [NewExoscaleStore], one for each [fmt.Errorf]. *)
Inductive SetupError (Err : Type) :=
| ProcessConfigFailed (cause : Err)
    (* "failed to process Exoscale store config: %w" *)
| UnmarshalConfigFailed (cause : Err)
    (* "failed to unmarshal Exoscale config: %w" *)
| MissingAPIKey
    (* "... the API key for Exoscale has to be provided via a SwitchConfig file" *)
| MissingSecretKey
    (* "... the secret key for Exoscale has to be provided via a SwitchConfig file" *)
| ClientInitFailed (cause : Err)
    (* "failed to initialize Exoscale client due to error: %w" *).
Arguments ProcessConfigFailed {Err}.
Arguments UnmarshalConfigFailed {Err}.
Arguments MissingAPIKey {Err}.
Arguments MissingSecretKey {Err}.
Arguments ClientInitFailed {Err}.

Section Construction.
Context {World Err Raw : Type}.
Variable setup : Setup World Err Raw.
(** [types.StoreKindExoscale], a constant of the [types] package. *)
Variable StoreKindExoscale : string.

(** [exoscaleStoreConfig := &types.StoreConfigExoscale{}; if store.Config !=
    nil { buf, err := yaml.Marshal(store.Config); ...; err =
    yaml.Unmarshal(buf, exoscaleStoreConfig); ... }] *)
Definition readStoreConfig (store : KubeconfigStore.t Raw)
    : result (SetupError Err) StoreConfigExoscale.t :=
  match KubeconfigStore.Config store with
  | None => Ok (StoreConfigExoscale.Make "" "")
  | Some config =>
      buf ← orWrap ProcessConfigFailed (Marshal setup config);
      orWrap UnmarshalConfigFailed (Unmarshal setup buf)
  end.

Definition NewExoscaleStore (store : KubeconfigStore.t Raw)
    : result (SetupError Err) (KubeconfigStore.t Raw * ExoscaleStore.t World Err) :=
  exoscaleStoreConfig ← readStoreConfig store;
  let exoscaleAPIKey := StoreConfigExoscale.ExoscaleAPIKey exoscaleStoreConfig in
  if decide (String.length exoscaleAPIKey = 0) then Fail MissingAPIKey else
  let exoscaleSecretKey := StoreConfigExoscale.ExoscaleSecretKey exoscaleStoreConfig in
  if decide (String.length exoscaleSecretKey = 0) then Fail MissingSecretKey else
  client ← orWrap ClientInitFailed (NewClient setup exoscaleAPIKey exoscaleSecretKey);
  Ok (store, ExoscaleStore.Make [] (Client.Make client []) ∅).

(** [fmt.Sprintf("%s.%s", types.StoreKindExoscale, id)] with [id] the
    configured one, or [default]. *)
Definition GetID (store : KubeconfigStore.t Raw) : string :=
  let id := match KubeconfigStore.ID store with
            | Some configured => configured
            | None => "default"
            end in
  StoreKindExoscale +:+ "." +:+ id.

Definition GetContextPrefix (store : KubeconfigStore.t Raw) (path : string) : string :=
  match KubeconfigStore.ShowPrefix store with
  | Some false => ""
  | _ =>
      match KubeconfigStore.ID store with
      | Some configured => configured
      | None => StoreKindExoscale
      end
  end.
End Construction.

(** A setup whose YAML is the API key and the secret key on two lines. *)
Definition twoLineSetup : Setup nat string (string * string) :=
  MkSetup nat string (string * string)
    (λ config, Ok (config.1 +:+ "/" +:+ config.2))
    (λ buf, match cut "/" buf with
            | Some (apiKey, secretKey) => Ok (StoreConfigExoscale.Make apiKey secretKey)
            | None => Fail "yaml: unmarshal errors"
            end)
    (λ _ _, Ok 0).

Definition keysConfigured : KubeconfigStore.t (string * string) :=
  KubeconfigStore.Make (Some "prod-account") None (Some ("EXOabc", "secret")).

(** A store that saw two clusters, one of which is gone from the service. *)
Definition staleStore : ExoscaleStore.t nat string :=
  ExoscaleStore.Make [] (Client.Make 0 [])
    {["id-1" := ExoscaleKube.Make "id-1" "prod" (Zone.Name gva2)
                  (Zone.APIEndpoint gva2);
      "id-9" := ExoscaleKube.Make "id-9" "retired" (Zone.Name fra1)
                  (Zone.APIEndpoint fra1)]}.

(** A kubeconfig with two clusters and their contexts. *)
Definition twoClusterDoc : Config.t string string unit unit :=
  Config.Make "Config" "v1" ()
    {["abc-123" := "https://abc-123.sks-ch-gva-2.exo.io";
      "def-456" := "https://def-456.sks-de-fra-1.exo.io"]}
    {["default" := "client-certificate-data"]}
    {["abc-123" := Context.Make "" "abc-123" "default" "" ();
      "def-456" := Context.Make "" "def-456" "default" "" ()]}
    "abc-123" ().

(** The order of [canonicalOrder], backwards. *)
Definition reverseOrder (V : Type) : RangeOrder V :=
  MkRangeOrder V (λ m, reverse (map_to_list m))
    (λ m, reverse_Permutation (map_to_list m)).

(** A kubeconfig without cluster whose current-context is set. *)
Definition noClusterDoc : Config.t string string unit unit :=
  Config.Make "Config" "v1" () ∅ ∅ ∅ "admin" ().

(** An account without zone. *)
Definition noZoneAPI : API nat string :=
  scriptedAPI (Ok []) (λ _, Ok []).

(** * Theorems *)

(** ** The renaming *)

Section RenameFacts.
Context {C A P Ext : Type}.
Variable rangeClusters : RangeOrder C.

Abbreviation Doc := (Config.t C A P Ext).

(** The name picked is a key of the clusters, or the empty string when
    there is no cluster. *)
Lemma pickOldClusterName_spec (cfg : Doc) :
  (Config.Clusters cfg = ∅ ∧ pickOldClusterName rangeClusters cfg = "")
  ∨ is_Some (Config.Clusters cfg !! pickOldClusterName rangeClusters cfg).
Proof.
  unfold pickOldClusterName.
  pose proof (range_perm rangeClusters (Config.Clusters cfg)) as Hperm.
  destruct (rangeClusters (Config.Clusters cfg)) as [|[k c] rest] eqn:Hvisit.
  - left. split; [|done].
    apply map_to_list_empty_iff. symmetry. by apply Permutation_nil_l.
  - right. simpl. exists c.
    apply elem_of_map_to_list. rewrite <- Hperm. by left.
Qed.

Lemma pickOldClusterName_empty (cfg : Doc) :
  Config.Clusters cfg = ∅ → pickOldClusterName rangeClusters cfg = "".
Proof.
  intros Hempty.
  destruct (pickOldClusterName_spec cfg) as [[_ ?]|[c Hc]]; [done|].
  rewrite Hempty in Hc. by rewrite lookup_empty in Hc.
Qed.

Lemma pickOldClusterName_singleton (cfg : Doc) (k : string) (c : C) :
  Config.Clusters cfg = {[k := c]} → pickOldClusterName rangeClusters cfg = k.
Proof.
  intros Hone.
  destruct (pickOldClusterName_spec cfg) as [[Hempty _]|[c' Hc]].
  - rewrite Hone in Hempty. by apply map_non_empty_singleton in Hempty.
  - rewrite Hone in Hc. by apply lookup_singleton_Some in Hc as [? _].
Qed.

(** Moving the only entry of a map to another name. *)
Lemma move_singleton {V} (old new : string) (v w : V) :
  old ≠ new →
  delete old (<[new := w]> ({[old := v]} : gmap string V)) = {[new := w]}.
Proof.
  intros Hne. rewrite delete_insert_ne by done.
  by rewrite delete_singleton_eq, insert_empty.
Qed.

(** C1. A document whose one cluster and one context are both named
    [abc-123], the context naming cluster [abc-123], and whose
    current-context is [abc-123], is rewritten for the name [mycluster]
    into the document whose one cluster is named [mycluster], whose one
    context is named [mycluster] and names cluster [mycluster], and whose
    current-context is [mycluster]; the cluster entry, the users, the other
    fields of the context and every other field of the document are the
    ones of the input. *)
Theorem rename_abc123_to_mycluster
    (kind apiVersion : string) (prefs : P) (ext : Ext)
    (c : C) (users : gmap string A)
    (origin user namespace : string) (ctxExt : Ext) :
  rewriteIdentity rangeClusters "mycluster"
    (Config.Make kind apiVersion prefs
       {["abc-123" := c]} users
       {["abc-123" := Context.Make origin "abc-123" user namespace ctxExt]}
       "abc-123" ext)
  = Config.Make kind apiVersion prefs
      {["mycluster" := c]} users
      {["mycluster" := Context.Make origin "mycluster" user namespace ctxExt]}
      "mycluster" ext.
Proof.
  unfold rewriteIdentity.
  erewrite pickOldClusterName_singleton by reflexivity.
  unfold renameFrom, moveCluster. simpl.
  rewrite lookup_singleton_eq.
  unfold moveContext. simpl. rewrite lookup_singleton_eq.
  unfold moveCurrentContext. simpl.
  unfold Config.setCurrentContext, Config.setContexts, Config.setClusters,
    Context.setCluster. simpl.
  by rewrite !move_singleton.
Qed.

(** With no cluster in the document, the old name is the empty string:
    the renaming then touches a context named by the empty string and a
    current-context that is not set, and nothing else. *)
Lemma rewriteIdentity_no_cluster (clusterName : string) (cfg : Doc) :
  Config.Clusters cfg = ∅ →
  rewriteIdentity rangeClusters clusterName cfg
  = moveCurrentContext "" clusterName (moveContext "" clusterName cfg).
Proof.
  intros Hempty. unfold rewriteIdentity.
  rewrite pickOldClusterName_empty by done.
  unfold renameFrom, moveCluster. by rewrite Hempty, lookup_empty.
Qed.

Lemma rewriteIdentity_no_cluster_same (clusterName : string) (cfg : Doc) :
  Config.Clusters cfg = ∅ →
  Config.Contexts cfg !! "" = None →
  Config.CurrentContext cfg ≠ "" →
  rewriteIdentity rangeClusters clusterName cfg = cfg.
Proof.
  intros Hempty Hctx Hcur. rewrite rewriteIdentity_no_cluster by done.
  unfold moveContext. rewrite Hctx.
  unfold moveCurrentContext. by rewrite decide_False.
Qed.

(** C7. A document with no cluster, no context and no current-context is
    not returned as it is: its current-context becomes the target name. *)
Theorem no_cluster_sets_current_context
    (clusterName kind apiVersion : string) (prefs : P) (ext : Ext)
    (users : gmap string A) :
  rewriteIdentity rangeClusters clusterName
    (Config.Make kind apiVersion prefs ∅ users ∅ "" ext)
  = Config.Make kind apiVersion prefs ∅ users ∅ clusterName ext.
Proof. by rewrite rewriteIdentity_no_cluster. Qed.

(** The three fields after the renaming from a name that is a cluster. *)
Lemma renameFrom_Clusters (old new : string) (cfg : Doc) (c : C) :
  Config.Clusters cfg !! old = Some c →
  Config.Clusters (renameFrom old new cfg)
  = delete old (<[new := c]> (Config.Clusters cfg)).
Proof.
  intros Hc. unfold renameFrom, moveCurrentContext, moveContext, moveCluster.
  rewrite Hc. simpl.
  destruct (Config.Contexts cfg !! old); simpl; by case_decide.
Qed.

Lemma renameFrom_Contexts (old new : string) (cfg : Doc) :
  Config.Contexts (renameFrom old new cfg)
  = match Config.Contexts cfg !! old with
    | Some ctx =>
        delete old (<[new := Context.setCluster new ctx]> (Config.Contexts cfg))
    | None => Config.Contexts cfg
    end.
Proof.
  unfold renameFrom, moveCurrentContext, moveContext, moveCluster.
  destruct (Config.Clusters cfg !! old); simpl;
    destruct (Config.Contexts cfg !! old); simpl; by case_decide.
Qed.

Lemma renameFrom_CurrentContext (old new : string) (cfg : Doc) :
  Config.CurrentContext (renameFrom old new cfg)
  = if decide (Config.CurrentContext cfg = old) then new
    else Config.CurrentContext cfg.
Proof.
  unfold renameFrom, moveCurrentContext, moveContext, moveCluster.
  destruct (Config.Clusters cfg !! old); simpl;
    destruct (Config.Contexts cfg !! old); simpl; by case_decide.
Qed.

Lemma renameFrom_keeps_cross_references (old new : string) (cfg : Doc) :
  crossRefsOk cfg →
  is_Some (Config.Clusters cfg !! old) →
  old ≠ "" → old ≠ new →
  contextMirrorsCluster old cfg →
  crossRefsOk (renameFrom old new cfg).
Proof.
  intros [Hctxs Hcur] [c Hc] Hset Hne Hmirror.
  assert (Hkept : ∀ name ctx,
             Config.Contexts cfg !! name = Some ctx → name ≠ old →
             is_Some (delete old (<[new := c]> (Config.Clusters cfg))
                        !! Context.Cluster ctx)).
  { intros name ctx Hname Hother.
    rewrite lookup_delete_ne
      by (intros Heq; by apply Hother, (Hmirror name ctx)).
    destruct (decide (new = Context.Cluster ctx)) as [<-|?].
    - rewrite lookup_insert_eq. by eexists.
    - rewrite lookup_insert_ne by done. by apply (Hctxs name ctx). }
  split.
  - unfold contextsResolve.
    rewrite (renameFrom_Clusters _ _ _ c), renameFrom_Contexts by done.
    intros name ctx. destruct (Config.Contexts cfg !! old) as [ctx0|] eqn:Hold.
    + intros [Hother Hname]%lookup_delete_Some.
      apply lookup_insert_Some in Hname as [[<- <-]|[_ Hname]].
      * simpl. rewrite lookup_delete_ne, lookup_insert_eq by done. by eexists.
      * by apply (Hkept name).
    + intros Hname. apply (Hkept name); [done|]. intros ->. congruence.
  - unfold currentContextResolves.
    rewrite renameFrom_CurrentContext, renameFrom_Contexts.
    case_decide as Hcase.
    + intros _. destruct Hcur as [ctx0 Hold]; [congruence|].
      rewrite Hcase in Hold. rewrite Hold.
      rewrite lookup_delete_ne, lookup_insert_eq by done. by eexists.
    + intros Hcurset. specialize (Hcur Hcurset).
      destruct (Config.Contexts cfg !! old); [|done].
      rewrite lookup_delete_ne by done.
      destruct (decide (new = Config.CurrentContext cfg)) as [<-|?].
      * rewrite lookup_insert_eq. by eexists.
      * by rewrite lookup_insert_ne.
Qed.

(** C2, amended.  When the document read has intact cross-references,
    the cluster name picked is not empty and is not the target name, and
    no context but the one called by the picked name refers to that
    cluster, the rewritten document has intact cross-references: every
    context names a cluster of the document, and a current-context that
    is set names a context of the document. *)
Theorem rewriteIdentity_keeps_cross_references (clusterName : string) (cfg : Doc) :
  crossRefsOk cfg →
  pickOldClusterName rangeClusters cfg ≠ "" →
  pickOldClusterName rangeClusters cfg ≠ clusterName →
  contextMirrorsCluster (pickOldClusterName rangeClusters cfg) cfg →
  crossRefsOk (rewriteIdentity rangeClusters clusterName cfg).
Proof.
  intros Hok Hset Hne Hmirror. unfold rewriteIdentity.
  apply renameFrom_keeps_cross_references; try done.
  by destruct (pickOldClusterName_spec cfg) as [[_ ?]|?].
Qed.
End RenameFacts.

(** *** The renaming on the concrete documents *)

Lemma exoscaleDoc_pick :
  pickOldClusterName (canonicalOrder string) exoscaleDoc = "abc-123".
Proof. by eapply pickOldClusterName_singleton. Qed.

Lemma adminDoc_pick :
  pickOldClusterName (canonicalOrder string) adminDoc = "abc-123".
Proof. by eapply pickOldClusterName_singleton. Qed.

Lemma exoscaleDoc_crossRefsOk : crossRefsOk exoscaleDoc.
Proof.
  split.
  - apply map_Forall_singleton. simpl. rewrite lookup_singleton_eq. by eexists.
  - intros _. simpl. rewrite lookup_singleton_eq. by eexists.
Qed.

Lemma exoscaleDoc_mirrors : contextMirrorsCluster "abc-123" exoscaleDoc.
Proof. by apply map_Forall_singleton. Qed.

Lemma adminDoc_crossRefsOk : crossRefsOk adminDoc.
Proof.
  split.
  - apply map_Forall_singleton. simpl. rewrite lookup_singleton_eq. by eexists.
  - intros _. simpl. rewrite lookup_singleton_eq. by eexists.
Qed.

Lemma rename_keeps_cross_references_witness :
  crossRefsOk (rewriteIdentity (canonicalOrder string) "mycluster" exoscaleDoc).
Proof.
  apply rewriteIdentity_keeps_cross_references.
  - exact exoscaleDoc_crossRefsOk.
  - by rewrite exoscaleDoc_pick.
  - by rewrite exoscaleDoc_pick.
  - rewrite exoscaleDoc_pick. exact exoscaleDoc_mirrors.
Defined.

(** A document with intact cross-references whose context has a name of its
    own comes back with that context naming a cluster that is gone. *)
Lemma rename_leaves_dangling_context :
  crossRefsOk adminDoc
  ∧ ¬ crossRefsOk (rewriteIdentity (canonicalOrder string) "mycluster" adminDoc).
Proof.
  split; [exact adminDoc_crossRefsOk|].
  intros [Hctxs _]. unfold rewriteIdentity in Hctxs.
  rewrite adminDoc_pick in Hctxs. unfold contextsResolve in Hctxs.
  erewrite renameFrom_Clusters, renameFrom_Contexts in Hctxs
    by apply lookup_singleton_eq.
  simpl in Hctxs. rewrite lookup_singleton_ne in Hctxs by done.
  apply map_Forall_singleton in Hctxs. simpl in Hctxs.
  rewrite move_singleton in Hctxs by done.
  rewrite lookup_singleton_ne in Hctxs by done.
  by destruct Hctxs.
Qed.

(** The empty document is changed by the renaming. *)
Lemma emptyDoc_changed :
  rewriteIdentity (canonicalOrder string) "mycluster" emptyDoc ≠ emptyDoc.
Proof. by rewrite rewriteIdentity_no_cluster. Qed.

(** ** The discovery pass *)

Section SearchFacts.
Context {World Err : Type}.
Variable api : API World Err.

Abbreviation St := (ExoscaleStore.t World Err).
Abbreviation Ev := (SearchResult.t Err).

Lemma warnings_app (l1 l2 : list (LogEntry.t Err)) :
  warnings (l1 ++ l2) = warnings l1 ++ warnings l2.
Proof. apply filter_app. Qed.

(** The inner loop: one entry recorded and one event sent for each
    cluster; the client is not used and no warning is written. *)
Lemma foldl_recordCluster (zone : Zone.t) (clusters : list SKSCluster.t) :
  ∀ (s : St) (channel : list Ev),
    let after := foldl (recordCluster zone) (s, channel) clusters in
    after.2 = channel ++ (found zone <$> clusters)
    ∧ ExoscaleStore.DiscoveredClusters after.1
      = recordAll (pair zone <$> clusters) (ExoscaleStore.DiscoveredClusters s)
    ∧ ExoscaleStore.Client after.1 = ExoscaleStore.Client s
    ∧ warnings (ExoscaleStore.Logger after.1) = warnings (ExoscaleStore.Logger s).
Proof.
  induction clusters as [|cluster rest IH]; intros s channel; simpl.
  - by rewrite app_nil_r.
  - match goal with
    | |- context [foldl _ ?acc rest] =>
        destruct (IH acc.1 acc.2) as (Hch & Hidx & Hcl & Hwarn)
    end.
    simpl in *. rewrite Hch, Hidx, Hcl, Hwarn.
    rewrite <- app_assoc. simpl. repeat split; try done.
    rewrite warnings_app. simpl. by rewrite app_nil_r.
Qed.

Lemma listedClusters_cons (zone : Zone.t) (resp : result Err (list SKSCluster.t))
    (answers : list (Zone.t * result Err (list SKSCluster.t))) :
  listedClusters ((zone, resp) :: answers)
  = match resp with
    | Ok clusters => pair zone <$> clusters
    | Fail _ => []
    end ++ listedClusters answers.
Proof. reflexivity. Qed.

Lemma failedZones_cons (zone : Zone.t) (resp : result Err (list SKSCluster.t))
    (answers : list (Zone.t * result Err (list SKSCluster.t))) :
  failedZones ((zone, resp) :: answers)
  = match resp with
    | Ok _ => []
    | Fail err => [(zone, err)]
    end ++ failedZones answers.
Proof. reflexivity. Qed.

Lemma recordAll_app (l1 l2 : list (Zone.t * SKSCluster.t))
    (index : gmap string ExoscaleKube.t) :
  recordAll (l1 ++ l2) index = recordAll l2 (recordAll l1 index).
Proof. apply foldl_app. Qed.

(** The outer loop, in terms of the answers of the service. *)
Lemma foldl_searchZone (zones : list Zone.t) :
  ∀ (s : St) (channel : list Ev),
    let after := foldl (searchZone api) (s, channel) zones in
    let answers := listings api zones (Client.remote (ExoscaleStore.Client s)) in
    after.2 = channel ++ (uncurry found <$> listedClusters answers)
    ∧ ExoscaleStore.DiscoveredClusters after.1
      = recordAll (listedClusters answers) (ExoscaleStore.DiscoveredClusters s)
    ∧ warnings (ExoscaleStore.Logger after.1)
      = warnings (ExoscaleStore.Logger s) ++ (zoneWarning <$> failedZones answers).
Proof.
  induction zones as [|zone rest IH]; intros s channel.
  - simpl. by rewrite !app_nil_r.
  - simpl. unfold callListSKSClusters, send.
    destruct (ListSKSClusters api (Zone.APIEndpoint zone)
                (Client.remote (ExoscaleStore.Client s))) as [resp w'] eqn:Hcall.
    rewrite listedClusters_cons, failedZones_cons.
    destruct resp as [clusters|err]; [case_decide as Hlen|].
    + apply length_zero_iff_nil in Hlen as ->.
      match goal with
      | |- context [foldl _ ?acc rest] =>
          destruct (IH acc.1 acc.2) as (Hch & Hidx & Hwarn)
      end.
      simpl in *. rewrite Hch, Hidx, Hwarn, warnings_app. simpl.
      by rewrite !app_nil_r.
    + match goal with
      | |- context [foldl (recordCluster zone) ?acc clusters] =>
          pose proof (foldl_recordCluster zone clusters acc.1 acc.2) as Hinner;
          simpl in Hinner;
          destruct (foldl (recordCluster zone) acc clusters) as [s1 ch1]
      end.
      destruct Hinner as (Hch1 & Hidx1 & Hcl1 & Hwarn1). simpl in *.
      destruct (IH s1 ch1) as (Hch & Hidx & Hwarn). simpl in *.
      rewrite Hch, Hidx, Hwarn, Hch1, Hidx1, Hwarn1, Hcl1. simpl.
      rewrite fmap_app, recordAll_app, <- app_assoc.
      repeat split; try done.
      f_equal. f_equal. rewrite <- list_fmap_compose. done.
    + match goal with
      | |- context [foldl _ ?acc rest] =>
          destruct (IH acc.1 acc.2) as (Hch & Hidx & Hwarn)
      end.
      simpl in *. rewrite Hch, Hidx, Hwarn, warnings_app. simpl.
      by rewrite <- app_assoc.
Qed.

(** A pass whose zone listing succeeds. *)
Lemma StartSearch_zones (s : St) (channel : list Ev)
    (zones : list Zone.t) (w' : World) :
  ListZones api (Client.remote (ExoscaleStore.Client s)) = (Ok zones, w') →
  let after := StartSearch api s channel in
  let answers := listings api zones w' in
  after.2 = channel ++ (uncurry found <$> listedClusters answers)
  ∧ ExoscaleStore.DiscoveredClusters after.1
    = recordAll (listedClusters answers) (ExoscaleStore.DiscoveredClusters s)
  ∧ warnings (ExoscaleStore.Logger after.1)
    = warnings (ExoscaleStore.Logger s) ++ (zoneWarning <$> failedZones answers).
Proof.
  intros Hzones. unfold StartSearch, callListZones, send. simpl.
  rewrite Hzones. case_decide as Hlen.
  - apply length_zero_iff_nil in Hlen as ->. simpl.
    rewrite !warnings_app. simpl. by rewrite !app_nil_r.
  - match goal with
    | |- context [foldl _ ?acc zones] =>
        pose proof (foldl_searchZone zones acc.1 acc.2) as Hloop
    end.
    simpl in Hloop. by rewrite !warnings_app, !app_nil_r in Hloop.
Qed.

(** In the index after [entries] were recorded, an id holds the entry of
    the last cluster listed with it. *)
Lemma recordAll_lookup_last (before after : list (Zone.t * SKSCluster.t))
    (zone : Zone.t) (cluster : SKSCluster.t) (index : gmap string ExoscaleKube.t) :
  Forall (λ later, SKSCluster.ID later.2 ≠ SKSCluster.ID cluster) after →
  recordAll (before ++ (zone, cluster) :: after) index !! SKSCluster.ID cluster
  = Some (discoveredKube zone cluster).
Proof.
  intros Hlater. rewrite recordAll_app. simpl.
  generalize (recordAll before index). intros m.
  assert (Hnow : <[SKSCluster.ID cluster := discoveredKube zone cluster]> m
                   !! SKSCluster.ID cluster = Some (discoveredKube zone cluster))
    by apply lookup_insert_eq.
  revert Hnow.
  generalize (<[SKSCluster.ID cluster := discoveredKube zone cluster]> m).
  induction Hlater as [|[z c] rest Hne _ IH]; intros m' Hnow; [done|].
  simpl. apply IH. by rewrite lookup_insert_ne.
Qed.

(** An id that no cluster was listed with keeps its entry. *)
Lemma recordAll_lookup_other (entries : list (Zone.t * SKSCluster.t))
    (id : string) (index : gmap string ExoscaleKube.t) :
  Forall (λ entry, SKSCluster.ID entry.2 ≠ id) entries →
  recordAll entries index !! id = index !! id.
Proof.
  intros Hother. revert index.
  induction Hother as [|[z c] rest Hne _ IH]; intros index; [done|].
  simpl. rewrite IH. by apply lookup_insert_ne.
Qed.

(** When the clusters listed with one id all make the same entry, the
    index holds the entry of each of them. *)
Lemma recordAll_lookup_consistent (entries : list (Zone.t * SKSCluster.t))
    (index : gmap string ExoscaleKube.t) :
  (∀ z1 c1 z2 c2, (z1, c1) ∈ entries → (z2, c2) ∈ entries →
                  SKSCluster.ID c1 = SKSCluster.ID c2 →
                  discoveredKube z1 c1 = discoveredKube z2 c2) →
  ∀ zone cluster, (zone, cluster) ∈ entries →
    recordAll entries index !! SKSCluster.ID cluster
    = Some (discoveredKube zone cluster).
Proof.
  intros Hsame. revert index.
  induction entries as [|[z c] rest IH] using rev_ind; intros index zone cluster Hin.
  - by apply elem_of_nil in Hin.
  - rewrite recordAll_app. simpl.
    destruct (decide (SKSCluster.ID c = SKSCluster.ID cluster)) as [Heq|Hne].
    + rewrite Heq, lookup_insert_eq. f_equal.
      apply Hsame; [|done..].
      apply elem_of_app. right. by apply list_elem_of_singleton.
    + rewrite lookup_insert_ne by done.
      apply IH.
      * intros z1 c1 z2 c2 H1 H2. apply Hsame; apply elem_of_app; by left.
      * apply elem_of_app in Hin as [?|Hlast]; [done|].
        apply list_elem_of_singleton in Hlast. congruence.
Qed.

(** When every listing succeeds, the clusters listed are those of all the
    zones. *)
Lemma listedClusters_all_ok (perZone : list (Zone.t * list SKSCluster.t)) :
  listedClusters ((λ '(zone, clusters), (zone, Ok clusters)) <$> perZone
                  : list (Zone.t * result Err (list SKSCluster.t)))
  = '(zone, clusters) ← perZone; pair zone <$> clusters.
Proof.
  induction perZone as [|[zone clusters] rest IH]; [done|].
  rewrite fmap_cons, listedClusters_cons, IH. done.
Qed.

(** C4. When the zone listing fails, the pass sends one event, which
    carries the failure as its error, and nothing else; the index is the
    one before the pass, and no other request is made. *)
Theorem zone_listing_failure_single_error (s : St) (channel : list Ev)
    (err : Err) (w' : World) :
  ListZones api (Client.remote (ExoscaleStore.Client s)) = (Fail err, w') →
  let after := StartSearch api s channel in
  after.2 = channel ++ [SearchResult.Make "" (Some (ListZonesFailed err))]
  ∧ ExoscaleStore.DiscoveredClusters after.1 = ExoscaleStore.DiscoveredClusters s
  ∧ Client.sent (ExoscaleStore.Client after.1)
    = Client.sent (ExoscaleStore.Client s) ++ [ReqListZones].
Proof.
  intros Hzones. unfold StartSearch, callListZones, send. simpl.
  by rewrite Hzones.
Qed.

(** C5. Whatever zones fail their cluster listing, the pass sends one
    success event [zone/name] for every cluster of every zone that did
    not fail, in the order listed; none of the events sent carries an
    error; each failure is written to the log as one warning. *)
Theorem zone_failures_logged_not_sent (s : St) (channel : list Ev)
    (zones : list Zone.t) (w' : World) :
  ListZones api (Client.remote (ExoscaleStore.Client s)) = (Ok zones, w') →
  let after := StartSearch api s channel in
  let answers := listings api zones w' in
  after.2
  = channel ++ ((λ '(zone, cluster),
                   SearchResult.Make
                     (Zone.Name zone +:+ "/" +:+ SKSCluster.Name cluster) None)
                  <$> listedClusters answers)
  ∧ Forall (λ ev : Ev, SearchResult.Error ev = None) (drop (length channel) after.2)
  ∧ warnings (ExoscaleStore.Logger after.1)
    = warnings (ExoscaleStore.Logger s) ++ (zoneWarning <$> failedZones answers).
Proof.
  intros Hzones.
  destruct (StartSearch_zones s channel zones w' Hzones) as (Hch & _ & Hwarn).
  simpl. split; [|split; [|done]].
  - by rewrite Hch.
  - rewrite Hch, drop_app_length. apply Forall_fmap, Forall_true.
    by intros [zone cluster].
Qed.

(** C6, amended.  When no listing fails and the clusters listed under one
    id all make the same entry, the index after the pass holds, for every
    cluster of every zone, the entry made of the cluster's id and name and
    of the zone's name and endpoint, and the pass has sent one success
    event [zone/name] for each of them, zone after zone in the order of the
    zone listing, and in the order of the cluster listing inside a zone. *)
Theorem healthy_pass_index_and_events (s : St) (channel : list Ev)
    (zones : list Zone.t) (w' : World)
    (perZone : list (Zone.t * list SKSCluster.t)) :
  ListZones api (Client.remote (ExoscaleStore.Client s)) = (Ok zones, w') →
  listings api zones w' = (λ '(zone, clusters), (zone, Ok clusters)) <$> perZone →
  let entries := '(zone, clusters) ← perZone; pair zone <$> clusters in
  (∀ z1 c1 z2 c2, (z1, c1) ∈ entries → (z2, c2) ∈ entries →
                  SKSCluster.ID c1 = SKSCluster.ID c2 →
                  discoveredKube z1 c1 = discoveredKube z2 c2) →
  let after := StartSearch api s channel in
  (∀ zone cluster, (zone, cluster) ∈ entries →
     ExoscaleStore.DiscoveredClusters after.1 !! SKSCluster.ID cluster
     = Some (ExoscaleKube.Make (SKSCluster.ID cluster) (SKSCluster.Name cluster)
                               (Zone.Name zone) (Zone.APIEndpoint zone)))
  ∧ after.2
    = channel ++ ((λ '(zone, cluster),
                     SearchResult.Make
                       (Zone.Name zone +:+ "/" +:+ SKSCluster.Name cluster) None)
                    <$> entries).
Proof.
  intros Hzones Hanswers entries Hsame.
  destruct (StartSearch_zones s channel zones w' Hzones) as (Hch & Hidx & _).
  assert (Hentries : listedClusters (listings api zones w') = entries).
  { rewrite Hanswers. apply listedClusters_all_ok. }
  rewrite Hentries in Hch, Hidx. simpl. split.
  - intros zone cluster Hin. rewrite Hidx.
    by apply recordAll_lookup_consistent.
  - by rewrite Hch.
Qed.

(** C8, amended.  The index is keyed by the id: after a pass, an id holds
    the entry of the last cluster listed with it, whatever clusters were
    listed with that id before, in the same zone or in another; clusters
    that share a name and differ in their id do not overwrite each other. *)
Theorem later_cluster_with_same_id_overwrites (s : St) (channel : list Ev)
    (zones : list Zone.t) (w' : World)
    (before after : list (Zone.t * SKSCluster.t))
    (zone : Zone.t) (cluster : SKSCluster.t) :
  ListZones api (Client.remote (ExoscaleStore.Client s)) = (Ok zones, w') →
  listedClusters (listings api zones w') = before ++ (zone, cluster) :: after →
  Forall (λ later, SKSCluster.ID later.2 ≠ SKSCluster.ID cluster) after →
  ExoscaleStore.DiscoveredClusters (StartSearch api s channel).1
    !! SKSCluster.ID cluster
  = Some (discoveredKube zone cluster).
Proof.
  intros Hzones Hentries Hlast.
  destruct (StartSearch_zones s channel zones w' Hzones) as (_ & Hidx & _).
  rewrite Hidx, Hentries. by apply recordAll_lookup_last.
Qed.
End SearchFacts.

(** *** Passes against the concrete services *)

Lemma zone_listing_failure_witness :
  let after := StartSearch downAPI newStore [] in
  after.2 = [SearchResult.Make "" (Some (ListZonesFailed "403 Forbidden"))]
  ∧ ExoscaleStore.DiscoveredClusters after.1 = ∅
  ∧ Client.sent (ExoscaleStore.Client after.1) = [ReqListZones].
Proof.
  exact (zone_listing_failure_single_error downAPI newStore [] "403 Forbidden" 1
           eq_refl).
Defined.

Lemma zone_failures_logged_witness :
  let after := StartSearch partialAPI newStore [] in
  after.2 = [SearchResult.Make "de-fra-1/prod" None;
             SearchResult.Make "de-fra-1/staging" None]
  ∧ Forall (λ ev : SearchResult.t string, SearchResult.Error ev = None) after.2
  ∧ warnings (ExoscaleStore.Logger after.1)
    = [LogEntry.Make WarnLevel (Some "timeout")
         "Failed to list SKS clusters for zone ch-gva-2"].
Proof.
  exact (zone_failures_logged_not_sent partialAPI newStore [] [gva2; fra1] 1
           eq_refl).
Defined.

(** Membership in a list that is written out. *)
Ltac elem_cases H :=
  repeat (apply elem_of_cons in H as [H|H]);
  try (by apply elem_of_nil in H).

Lemma healthy_pass_witness :
  let after := StartSearch healthyAPI newStore [] in
  (∀ zone cluster,
     (zone, cluster) ∈ [(gva2, SKSCluster.Make "id-1" "prod");
                        (fra1, SKSCluster.Make "id-2" "prod");
                        (fra1, SKSCluster.Make "id-3" "staging")] →
     ExoscaleStore.DiscoveredClusters after.1 !! SKSCluster.ID cluster
     = Some (ExoscaleKube.Make (SKSCluster.ID cluster) (SKSCluster.Name cluster)
                               (Zone.Name zone) (Zone.APIEndpoint zone)))
  ∧ after.2 = [SearchResult.Make "ch-gva-2/prod" None;
               SearchResult.Make "de-fra-1/prod" None;
               SearchResult.Make "de-fra-1/staging" None].
Proof.
  apply (healthy_pass_index_and_events healthyAPI newStore [] [gva2; fra1] 1
           [(gva2, [SKSCluster.Make "id-1" "prod"]);
            (fra1, [SKSCluster.Make "id-2" "prod";
                    SKSCluster.Make "id-3" "staging"])]).
  - reflexivity.
  - reflexivity.
  - intros z1 c1 z2 c2 H1 H2 Hid.
    elem_cases H1; elem_cases H2; by simplify_eq.
Defined.

(** Two zones list a cluster under one id: the pass has no failure, and the
    index does not hold the entry of the first of the two. *)
Lemma same_id_first_entry_lost :
  let after := StartSearch sameIdAPI newStore [] in
  listings sameIdAPI [gva2; fra1] 1
  = [(gva2, Ok [SKSCluster.Make "id-1" "prod"]);
     (fra1, Ok [SKSCluster.Make "id-1" "staging"])]
  ∧ ExoscaleStore.DiscoveredClusters after.1 !! "id-1"
    ≠ Some (ExoscaleKube.Make "id-1" "prod" (Zone.Name gva2) (Zone.APIEndpoint gva2)).
Proof.
  split; [reflexivity|].
  destruct (StartSearch_zones sameIdAPI newStore [] [gva2; fra1] 1 eq_refl)
    as (_ & Hidx & _).
  rewrite Hidx.
  change (listedClusters (listings sameIdAPI [gva2; fra1] 1))
    with ([(gva2, SKSCluster.Make "id-1" "prod")]
          ++ (fra1, SKSCluster.Make "id-1" "staging") :: []).
  change "id-1" with (SKSCluster.ID (SKSCluster.Make "id-1" "staging")) at 1.
  by rewrite recordAll_lookup_last.
Qed.

Lemma later_cluster_witness :
  ExoscaleStore.DiscoveredClusters (StartSearch sameIdAPI newStore []).1 !! "id-1"
  = Some (ExoscaleKube.Make "id-1" "staging" (Zone.Name fra1) (Zone.APIEndpoint fra1)).
Proof.
  apply (later_cluster_with_same_id_overwrites sameIdAPI newStore [] [gva2; fra1] 1
           [(gva2, SKSCluster.Make "id-1" "prod")] []
           fra1 (SKSCluster.Make "id-1" "staging")).
  - reflexivity.
  - reflexivity.
  - constructor.
Defined.

(** One zone lists two clusters called [prod]: the index holds an entry for
    each of them. *)
Lemma same_name_both_entries_kept :
  let index := ExoscaleStore.DiscoveredClusters (StartSearch sameNameAPI newStore []).1 in
  listings sameNameAPI [gva2] 1
  = [(gva2, Ok [SKSCluster.Make "id-1" "prod"; SKSCluster.Make "id-2" "prod"])]
  ∧ index !! "id-1"
    = Some (ExoscaleKube.Make "id-1" "prod" (Zone.Name gva2) (Zone.APIEndpoint gva2))
  ∧ index !! "id-2"
    = Some (ExoscaleKube.Make "id-2" "prod" (Zone.Name gva2) (Zone.APIEndpoint gva2)).
Proof.
  destruct (StartSearch_zones sameNameAPI newStore [] [gva2] 1 eq_refl)
    as (_ & Hidx & _).
  cbv zeta. rewrite Hidx. split; [reflexivity|]. split.
  - apply (recordAll_lookup_last [] [(gva2, SKSCluster.Make "id-2" "prod")]
             gva2 (SKSCluster.Make "id-1" "prod")).
    by repeat constructor.
  - apply (recordAll_lookup_last [(gva2, SKSCluster.Make "id-1" "prod")] []
             gva2 (SKSCluster.Make "id-2" "prod")).
    constructor.
Qed.

(** ** The credential lookup *)

Lemma cut_None_iff (sep : ascii) (s : string) :
  cut sep s = None ↔ countSep sep s = 0.
Proof.
  induction s as [|c rest IH]; simpl; [done|].
  destruct (Ascii.eqb c sep); simpl; [done|].
  rewrite <- IH. by destruct (cut sep rest) as [[before after]|].
Qed.

Lemma SplitN_two (s : string) (sep : ascii) :
  SplitN s sep 2
  = match cut sep s with
    | None => [s]
    | Some (before, after) => [before; after]
    end.
Proof. simpl. by destruct (cut sep s) as [[before after]|]. Qed.

Lemma findMatch_Some (zoneName clusterName : string)
    (visited : list (string * ExoscaleKube.t)) (matched : ExoscaleKube.t) :
  findMatch zoneName clusterName visited = Some matched →
  (∃ id, (id, matched) ∈ visited)
  ∧ ExoscaleKube.ZoneName matched = zoneName
  ∧ ExoscaleKube.Name matched = clusterName.
Proof.
  induction visited as [|[id c] rest IH]; simpl; [done|].
  case_decide as Hmatch.
  - intros [= <-]. split; [|done]. exists id. by left.
  - intros Hrest. destruct (IH Hrest) as [[id' Hin] ?].
    split; [|done]. exists id'. by right.
Qed.

Lemma findMatch_None (zoneName clusterName : string)
    (visited : list (string * ExoscaleKube.t)) :
  findMatch zoneName clusterName visited = None →
  ∀ id c, (id, c) ∈ visited →
    ¬ (ExoscaleKube.ZoneName c = zoneName ∧ ExoscaleKube.Name c = clusterName).
Proof.
  induction visited as [|[id' c'] rest IH]; simpl; intros Hnone id c Hin.
  - by apply elem_of_nil in Hin.
  - case_decide as Hmatch; [done|].
    apply elem_of_cons in Hin as [[= -> ->]|Hin]; [done|]. by eapply IH.
Qed.

Section LookupFacts.
Context {World Err C A P Ext : Type}.
Variable api : API World Err.
Variable codec : Codec Err C A P Ext.
Variable rangeIndex : RangeOrder ExoscaleKube.t.
Variable rangeClusters : RangeOrder C.

Abbreviation lookupPath :=
  (GetKubeconfigForPath api codec rangeIndex rangeClusters).

(** A path with a separator is split around the first one and then
    looked up in the index. *)
Lemma GetKubeconfigForPath_split (path zoneName clusterName : string)
    (extra : gmap string string) (s : ExoscaleStore.t World Err) :
  cut "/" path = Some (zoneName, clusterName) →
  lookupPath path extra s
  = match findMatch zoneName clusterName
            (rangeIndex (ExoscaleStore.DiscoveredClusters s)) with
    | None => (Fail (ClusterNotFound path), s)
    | Some matched =>
        let '(resp, client) :=
          callGenerateSKSClusterKubeconfig api
            (ExoscaleKube.ZoneEndpoint matched) (ExoscaleKube.ID matched)
            kubeconfigRequest (ExoscaleStore.Client s) in
        (materialize codec rangeClusters path clusterName resp,
         withClient client s)
    end.
Proof.
  intros Hcut. unfold GetKubeconfigForPath. by rewrite SplitN_two, Hcut.
Qed.

Lemma GetKubeconfigForPath_no_separator (path : string)
    (extra : gmap string string) (s : ExoscaleStore.t World Err) :
  cut "/" path = None →
  lookupPath path extra s = (Fail (MalformedPath path), s).
Proof.
  intros Hcut. unfold GetKubeconfigForPath. by rewrite SplitN_two, Hcut.
Qed.

(** None of the steps after the lookup reports a malformed path. *)
Lemma materialize_not_malformed (path clusterName p : string)
    (resp : result Err string) :
  materialize codec rangeClusters path clusterName resp ≠ Fail (MalformedPath p).
Proof.
  unfold materialize. destruct resp as [payload|err]; simpl; [|done].
  destruct (DecodeString codec payload) as [raw|err]; simpl; [|done].
  destruct (Load codec raw) as [cfg|err]; simpl; [|done].
  by destruct (Write codec _).
Qed.

(** The bytes returned are those [clientcmd.Write] makes of the renamed
    document. *)
Lemma materialize_Ok (path clusterName bytes : string) (resp : result Err string) :
  materialize codec rangeClusters path clusterName resp = Ok bytes →
  ∃ payload raw cfg,
    resp = Ok payload
    ∧ DecodeString codec payload = Ok raw
    ∧ Load codec raw = Ok cfg
    ∧ Write codec (rewriteIdentity rangeClusters clusterName cfg) = Ok bytes.
Proof.
  unfold materialize. destruct resp as [payload|err]; simpl; [|done].
  destruct (DecodeString codec payload) as [raw|err] eqn:Hdecode; simpl; [|done].
  destruct (Load codec raw) as [cfg|err] eqn:Hload; simpl; [|done].
  destruct (Write codec _) as [written|err] eqn:Hwrite; simpl; [|done].
  intros [= <-]. by exists payload, raw, cfg.
Qed.

(** C3, amended.  The lookup fails with the malformed-path error exactly
    when the path has no separator, and the error names that path; a path
    with two separators or more is split around the first one, and is not
    malformed. *)
Theorem malformed_path_iff_no_separator (path : string)
    (extra : gmap string string) (s : ExoscaleStore.t World Err) :
  ((lookupPath path extra s).1 = Fail (MalformedPath path)
   ↔ countSep "/" path = 0)
  ∧ (∀ p, (lookupPath path extra s).1 = Fail (MalformedPath p) → p = path).
Proof.
  destruct (cut "/" path) as [[zoneName clusterName]|] eqn:Hcut.
  - assert (Hsome : countSep "/" path ≠ 0)
      by (rewrite <- cut_None_iff; congruence).
    assert (Hnot : ∀ p, (lookupPath path extra s).1 ≠ Fail (MalformedPath p)).
    { intros p. rewrite (GetKubeconfigForPath_split _ _ _ _ _ Hcut).
      destruct (findMatch _ _ _) as [matched|]; [|done].
      destruct (callGenerateSKSClusterKubeconfig _ _ _ _ _) as [resp client].
      apply materialize_not_malformed. }
    split; [split; [|done]|]; intros; by edestruct Hnot.
  - rewrite (GetKubeconfigForPath_no_separator _ _ _ Hcut). simpl.
    split; [split; [|done]|].
    + intros _. by apply cut_None_iff.
    + by intros p [= ->].
Qed.

(** C9. For a path [zone/name] that some entry of the index matches, the
    lookup sends one request, which asks to generate a kubeconfig at the
    zone endpoint and for the id of a matching entry, for the group
    [system:masters], the user [default] and 2592000 seconds. *)
Theorem one_generation_request (path zoneName clusterName : string)
    (extra : gmap string string) (s : ExoscaleStore.t World Err) :
  cut "/" path = Some (zoneName, clusterName) →
  (∃ id entry, ExoscaleStore.DiscoveredClusters s !! id = Some entry
               ∧ ExoscaleKube.ZoneName entry = zoneName
               ∧ ExoscaleKube.Name entry = clusterName) →
  ∃ id matched,
    ExoscaleStore.DiscoveredClusters s !! id = Some matched
    ∧ ExoscaleKube.ZoneName matched = zoneName
    ∧ ExoscaleKube.Name matched = clusterName
    ∧ Client.sent (ExoscaleStore.Client (lookupPath path extra s).2)
      = Client.sent (ExoscaleStore.Client s)
        ++ [ReqGenerateSKSClusterKubeconfig
              (ExoscaleKube.ZoneEndpoint matched) (ExoscaleKube.ID matched)
              (SKSKubeconfigRequest.Make ["system:masters"] "default" 2592000)].
Proof.
  intros Hcut (id & entry & Hentry & Hzone & Hname).
  rewrite (GetKubeconfigForPath_split _ _ _ _ _ Hcut).
  destruct (findMatch zoneName clusterName _) as [matched|] eqn:Hfind.
  - apply findMatch_Some in Hfind as ([id' Hin] & Hz & Hn).
    rewrite range_perm in Hin. apply elem_of_map_to_list in Hin.
    exists id', matched. repeat split; try done.
    unfold callGenerateSKSClusterKubeconfig, send.
    by destruct (GenerateSKSClusterKubeconfig _ _ _ _ _).
  - exfalso. eapply (findMatch_None _ _ _ Hfind id entry); [|done].
    rewrite range_perm. by apply elem_of_map_to_list.
Qed.

(** C10. The lookup leaves the index as it was, whatever the path, the
    extra context, the index and the answers of the service, and whether
    it returns bytes or an error. *)
Theorem lookup_keeps_index (path : string) (extra : gmap string string)
    (s : ExoscaleStore.t World Err) :
  ExoscaleStore.DiscoveredClusters (lookupPath path extra s).2
  = ExoscaleStore.DiscoveredClusters s.
Proof.
  unfold GetKubeconfigForPath.
  destruct (SplitN path "/" 2) as [|zoneName [|clusterName [|? ?]]]; try done.
  destruct (findMatch _ _ _) as [matched|]; [|done].
  by destruct (callGenerateSKSClusterKubeconfig _ _ _ _ _).
Qed.

(** When the lookup returns bytes, they are those written for the renamed
    document, the target name being the part of the path after the first
    separator. *)
Lemma GetKubeconfigForPath_Ok (path bytes : string) (extra : gmap string string)
    (s : ExoscaleStore.t World Err) :
  (lookupPath path extra s).1 = Ok bytes →
  ∃ zoneName clusterName raw cfg,
    cut "/" path = Some (zoneName, clusterName)
    ∧ Load codec raw = Ok cfg
    ∧ Write codec (rewriteIdentity rangeClusters clusterName cfg) = Ok bytes.
Proof.
  destruct (cut "/" path) as [[zoneName clusterName]|] eqn:Hcut.
  - rewrite (GetKubeconfigForPath_split _ _ _ _ _ Hcut).
    destruct (findMatch _ _ _) as [matched|]; [|done].
    destruct (callGenerateSKSClusterKubeconfig _ _ _ _ _) as [resp client].
    simpl. intros (payload & raw & cfg & _ & _ & Hload & Hwrite)%materialize_Ok.
    by exists zoneName, clusterName, raw, cfg.
  - by rewrite (GetKubeconfigForPath_no_separator _ _ _ Hcut).
Qed.
End LookupFacts.

(** *** Lookups against the concrete services *)

(** A path with two separators, looked up in an empty index, is reported as
    not found, not as malformed. *)
Lemma two_separators_not_malformed :
  let outcome :=
    (GetKubeconfigForPath healthyAPI plainCodec (canonicalOrder _) (canonicalOrder _)
       "ch-gva-2/team/prod" ∅ newStore).1 in
  countSep "/" "ch-gva-2/team/prod" = 2
  ∧ outcome = Fail (ClusterNotFound "ch-gva-2/team/prod")
  ∧ outcome ≠ Fail (MalformedPath "ch-gva-2/team/prod").
Proof.
  cbv zeta.
  rewrite (GetKubeconfigForPath_split _ _ _ _ _ "ch-gva-2" "team/prod") by done.
  by repeat split.
Qed.

(** The whole lookup of [ch-gva-2/prod]: the kubeconfig read is
    [exoscaleDoc], and the bytes returned are written from the document
    renamed to [prod]. *)
Example lookup_prod :
  (GetKubeconfigForPath healthyAPI plainCodec (canonicalOrder _) (canonicalOrder _)
     "ch-gva-2/prod" ∅ prodStore).1
  = Ok "prod".
Proof. vm_compute. reflexivity. Qed.

Lemma one_generation_request_witness :
  ∃ id matched,
    ExoscaleStore.DiscoveredClusters prodStore !! id = Some matched
    ∧ ExoscaleKube.ZoneName matched = "ch-gva-2"
    ∧ ExoscaleKube.Name matched = "prod"
    ∧ Client.sent (ExoscaleStore.Client
        (GetKubeconfigForPath healthyAPI plainCodec (canonicalOrder _)
           (canonicalOrder _) "ch-gva-2/prod" ∅ prodStore).2)
      = Client.sent (ExoscaleStore.Client prodStore)
        ++ [ReqGenerateSKSClusterKubeconfig
              (ExoscaleKube.ZoneEndpoint matched) (ExoscaleKube.ID matched)
              (SKSKubeconfigRequest.Make ["system:masters"] "default" 2592000)].
Proof.
  apply (one_generation_request healthyAPI plainCodec (canonicalOrder _)
           (canonicalOrder _) "ch-gva-2/prod" "ch-gva-2" "prod" ∅ prodStore).
  - reflexivity.
  - exists "id-1", (ExoscaleKube.Make "id-1" "prod" (Zone.Name gva2)
                      (Zone.APIEndpoint gva2)).
    split; [apply lookup_singleton_eq|done].
Defined.

(** The lookup of [ch-gva-2/prod] when the kubeconfig read has no cluster and
    no current-context: the document written has the current-context [prod]. *)
Example lookup_prod_empty_payload :
  Write emptyPayloadCodec emptyDoc = Ok ""
  ∧ (GetKubeconfigForPath healthyAPI emptyPayloadCodec (canonicalOrder _)
       (canonicalOrder _) "ch-gva-2/prod" ∅ prodStore).1
    = Ok "prod".
Proof. split; vm_compute; reflexivity. Qed.

(** * Further properties *)

(** ** The renaming, for every document *)

Lemma size_le_one_key {V} (m : gmap string V) (k1 k2 : string) :
  (size m ≤ 1)%nat → is_Some (m !! k1) → is_Some (m !! k2) → k1 = k2.
Proof.
  intros Hsize [v1 H1] [v2 H2].
  destruct (decide (k1 = k2)) as [|Hne]; [done|exfalso].
  rewrite <- (insert_delete_id m k1 v1) in Hsize by done.
  rewrite map_size_insert_None in Hsize by apply lookup_delete_eq.
  assert (delete k1 m = ∅) as Hempty by (apply map_size_empty_iff; lia).
  assert (delete k1 m !! k2 = Some v2) as Hk2 by by rewrite lookup_delete_ne.
  by rewrite Hempty, lookup_empty in Hk2.
Qed.

Section RenameMore.
Context {C A P Ext : Type}.
Variable rangeClusters : RangeOrder C.

(** X1. The users, the kind, the version, the preferences and the extensions of
    a document are never changed by the renaming. *)
Theorem rewriteIdentity_keeps_users (clusterName : string) (cfg : Config.t C A P Ext) :
  let after := rewriteIdentity rangeClusters clusterName cfg in
  Config.AuthInfos after = Config.AuthInfos cfg
  ∧ Config.Kind after = Config.Kind cfg
  ∧ Config.APIVersion after = Config.APIVersion cfg
  ∧ Config.Preferences after = Config.Preferences cfg
  ∧ Config.Extensions after = Config.Extensions cfg.
Proof.
  unfold rewriteIdentity, renameFrom, moveCurrentContext, moveContext, moveCluster.
  destruct (Config.Clusters cfg !! _); simpl;
    destruct (Config.Contexts cfg !! _); simpl; by case_decide.
Qed.

(** X2. In a document with a cluster, when the name picked is not the target
    name, the entry picked is found under the target name with its value,
    the name picked is no longer a cluster, and the clusters under other
    names are as they were. *)
Theorem rewriteIdentity_moves_cluster (clusterName : string) (cfg : Config.t C A P Ext) :
  Config.Clusters cfg ≠ ∅ →
  pickOldClusterName rangeClusters cfg ≠ clusterName →
  let old := pickOldClusterName rangeClusters cfg in
  let after := rewriteIdentity rangeClusters clusterName cfg in
  is_Some (Config.Clusters cfg !! old)
  ∧ Config.Clusters after !! clusterName = Config.Clusters cfg !! old
  ∧ Config.Clusters after !! old = None
  ∧ ∀ name, name ≠ old → name ≠ clusterName →
      Config.Clusters after !! name = Config.Clusters cfg !! name.
Proof.
  intros Hsome Hne old after.
  destruct (pickOldClusterName_spec rangeClusters cfg) as [[? _]|[c Hc]]; [done|].
  fold old in Hc. unfold after, rewriteIdentity. fold old.
  rewrite (renameFrom_Clusters _ _ _ c Hc). repeat split.
  - by eexists.
  - by rewrite lookup_delete_ne, lookup_insert_eq.
  - apply lookup_delete_eq.
  - intros name Hold Hnew. by rewrite lookup_delete_ne, lookup_insert_ne.
Qed.

(** X3. When the name picked is not the target name, a context under the name
    picked is found under the target name, naming the target as its cluster
    and otherwise the same; the name picked is no longer a context; the
    contexts under other names are as they were.  Without a context under
    the name picked, the contexts are not changed. *)
Theorem rewriteIdentity_moves_context (clusterName : string) (cfg : Config.t C A P Ext) :
  pickOldClusterName rangeClusters cfg ≠ clusterName →
  let old := pickOldClusterName rangeClusters cfg in
  let after := rewriteIdentity rangeClusters clusterName cfg in
  (∀ ctx, Config.Contexts cfg !! old = Some ctx →
     Config.Contexts after !! clusterName
     = Some (Context.Make (Context.LocationOfOrigin ctx) clusterName
               (Context.AuthInfo ctx) (Context.Namespace ctx)
               (Context.Extensions ctx))
     ∧ Config.Contexts after !! old = None)
  ∧ (Config.Contexts cfg !! old = None →
     Config.Contexts after = Config.Contexts cfg)
  ∧ ∀ name, name ≠ old → name ≠ clusterName →
      Config.Contexts after !! name = Config.Contexts cfg !! name.
Proof.
  intros Hne old after. unfold after, rewriteIdentity. fold old.
  rewrite renameFrom_Contexts. split; [|split].
  - intros ctx Hctx. rewrite Hctx. split.
    + by rewrite lookup_delete_ne, lookup_insert_eq.
    + apply lookup_delete_eq.
  - by intros ->.
  - intros name Hold Hnew. destruct (Config.Contexts cfg !! old); [|done].
    by rewrite lookup_delete_ne, lookup_insert_ne.
Qed.

(** X4. When the name picked is the target name, the cluster and the context
    under that name are removed from the document, and the current-context
    is kept. *)
Theorem rewriteIdentity_same_name_deletes (clusterName : string)
    (cfg : Config.t C A P Ext) :
  Config.Clusters cfg ≠ ∅ →
  pickOldClusterName rangeClusters cfg = clusterName →
  let after := rewriteIdentity rangeClusters clusterName cfg in
  Config.Clusters after = delete clusterName (Config.Clusters cfg)
  ∧ Config.Contexts after = delete clusterName (Config.Contexts cfg)
  ∧ Config.CurrentContext after = Config.CurrentContext cfg.
Proof.
  intros Hsome Hpick after.
  destruct (pickOldClusterName_spec rangeClusters cfg) as [[? _]|[c Hc]]; [done|].
  unfold after, rewriteIdentity. rewrite Hpick in *.
  rewrite (renameFrom_Clusters _ _ _ c Hc), renameFrom_Contexts,
    renameFrom_CurrentContext.
  repeat split.
  - apply delete_insert_eq.
  - destruct (Config.Contexts cfg !! clusterName) eqn:Hctx.
    + apply delete_insert_eq.
    + symmetry. by apply delete_id.
  - by case_decide.
Qed.

(** X5. A document written for one cluster the way Exoscale does, under any old
    name that is not the target name, is renamed as a whole. *)
Theorem rewriteIdentity_one_cluster_document
    (old clusterName kind apiVersion : string) (prefs : P) (ext : Ext)
    (c : C) (users : gmap string A)
    (origin user namespace : string) (ctxExt : Ext) :
  old ≠ clusterName →
  rewriteIdentity rangeClusters clusterName
    (Config.Make kind apiVersion prefs
       {[old := c]} users
       {[old := Context.Make origin old user namespace ctxExt]}
       old ext)
  = Config.Make kind apiVersion prefs
      {[clusterName := c]} users
      {[clusterName := Context.Make origin clusterName user namespace ctxExt]}
      clusterName ext.
Proof.
  intros Hne. unfold rewriteIdentity.
  erewrite pickOldClusterName_singleton by reflexivity.
  unfold renameFrom, moveCluster. simpl. rewrite lookup_singleton_eq.
  unfold moveContext. simpl. rewrite lookup_singleton_eq.
  unfold moveCurrentContext. simpl. rewrite decide_True by done.
  unfold Config.setCurrentContext, Config.setContexts, Config.setClusters,
    Context.setCluster. simpl.
  by rewrite !move_singleton.
Qed.
End RenameMore.

(** X8. A document without cluster, without a context under the empty name
    and with a current-context that is set comes back from the renaming as
    it was. *)
Theorem no_cluster_document_unchanged {C A P Ext : Type}
    (order : RangeOrder C) (clusterName : string) (cfg : Config.t C A P Ext) :
  Config.Clusters cfg = ∅ →
  Config.Contexts cfg !! "" = None →
  Config.CurrentContext cfg ≠ "" →
  rewriteIdentity order clusterName cfg = cfg.
Proof. apply rewriteIdentity_no_cluster_same. Qed.

(** X6. With at most one cluster in the document, the order in which the
    clusters are visited does not matter. *)
Theorem rewriteIdentity_order_irrelevant {C A P Ext : Type}
    (order1 order2 : RangeOrder C) (clusterName : string) (cfg : Config.t C A P Ext) :
  (size (Config.Clusters cfg) ≤ 1)%nat →
  rewriteIdentity order1 clusterName cfg = rewriteIdentity order2 clusterName cfg.
Proof.
  intros Hsize. unfold rewriteIdentity. f_equal.
  destruct (pickOldClusterName_spec order1 cfg) as [[Hempty ->]|H1].
  - symmetry. by apply pickOldClusterName_empty.
  - destruct (pickOldClusterName_spec order2 cfg) as [[Hempty _]|H2].
    + destruct H1 as [c Hc]. by rewrite Hempty, lookup_empty in Hc.
    + by eapply size_le_one_key.
Qed.

(** X7. Every cluster of a document is the one picked by some order of visit:
    with several clusters, which one is renamed is open. *)
Theorem any_cluster_may_be_picked {C A P Ext : Type}
    (cfg : Config.t C A P Ext) (name : string) :
  is_Some (Config.Clusters cfg !! name) →
  ∃ order : RangeOrder C, pickOldClusterName order cfg = name.
Proof.
  intros Hname.
  set (visit := λ m : gmap string C,
         match m !! name with
         | Some c => (name, c) :: map_to_list (delete name m)
         | None => map_to_list m
         end).
  assert (Hperm : ∀ m, visit m ≡ₚ map_to_list m).
  { intros m. unfold visit. destruct (m !! name) as [c|] eqn:Hm; [|done].
    by apply map_to_list_delete. }
  exists (MkRangeOrder C visit Hperm).
  unfold pickOldClusterName. simpl. unfold visit.
  by destruct Hname as [c ->].
Qed.

(** *** The renaming on the concrete documents, continued *)

Lemma rewriteIdentity_moves_cluster_witness :
  let after := rewriteIdentity (canonicalOrder string) "mycluster" exoscaleDoc in
  is_Some (Config.Clusters exoscaleDoc
             !! pickOldClusterName (canonicalOrder string) exoscaleDoc)
  ∧ Config.Clusters after !! "mycluster"
    = Config.Clusters exoscaleDoc
        !! pickOldClusterName (canonicalOrder string) exoscaleDoc
  ∧ Config.Clusters after !! pickOldClusterName (canonicalOrder string) exoscaleDoc
    = None
  ∧ ∀ name, name ≠ pickOldClusterName (canonicalOrder string) exoscaleDoc →
      name ≠ "mycluster" →
      Config.Clusters after !! name = Config.Clusters exoscaleDoc !! name.
Proof.
  apply (rewriteIdentity_moves_cluster (canonicalOrder string) "mycluster" exoscaleDoc).
  - apply map_non_empty_singleton.
  - by rewrite exoscaleDoc_pick.
Defined.

Lemma rewriteIdentity_moves_context_witness :
  Config.Contexts (rewriteIdentity (canonicalOrder string) "mycluster" exoscaleDoc)
    !! "mycluster"
  = Some (Context.Make "" "mycluster" "default" "" ()).
Proof.
  assert (Hne : pickOldClusterName (canonicalOrder string) exoscaleDoc ≠ "mycluster")
    by by rewrite exoscaleDoc_pick.
  destruct (rewriteIdentity_moves_context (canonicalOrder string) "mycluster"
              exoscaleDoc Hne) as [Hmoved _].
  apply (Hmoved (Context.Make "" "abc-123" "default" "" ())).
  rewrite exoscaleDoc_pick. apply lookup_singleton_eq.
Defined.

Lemma rewriteIdentity_same_name_witness :
  let after := rewriteIdentity (canonicalOrder string) "abc-123" exoscaleDoc in
  Config.Clusters after = delete "abc-123" (Config.Clusters exoscaleDoc)
  ∧ Config.Contexts after = delete "abc-123" (Config.Contexts exoscaleDoc)
  ∧ Config.CurrentContext after = "abc-123".
Proof.
  apply (rewriteIdentity_same_name_deletes (canonicalOrder string) "abc-123"
           exoscaleDoc).
  - apply map_non_empty_singleton.
  - exact exoscaleDoc_pick.
Defined.

Lemma rewriteIdentity_one_cluster_witness :
  rewriteIdentity (reverseOrder string) "prod"
    (Config.Make "Config" "v1" ()
       {["f3a1" := "https://f3a1.sks-ch-gva-2.exo.io"]}
       ({["default" := "client-certificate-data"]} : gmap string string)
       {["f3a1" := Context.Make "" "f3a1" "default" "kube-system" ()]}
       "f3a1" ())
  = Config.Make "Config" "v1" ()
      {["prod" := "https://f3a1.sks-ch-gva-2.exo.io"]}
      {["default" := "client-certificate-data"]}
      {["prod" := Context.Make "" "prod" "default" "kube-system" ()]}
      "prod" ().
Proof. by apply rewriteIdentity_one_cluster_document. Defined.

Lemma rewriteIdentity_order_witness :
  rewriteIdentity (canonicalOrder string) "mycluster" exoscaleDoc
  = rewriteIdentity (reverseOrder string) "mycluster" exoscaleDoc.
Proof.
  apply rewriteIdentity_order_irrelevant. simpl.
  by rewrite map_size_singleton.
Defined.

Lemma any_cluster_witness :
  ∃ order : RangeOrder string, pickOldClusterName order twoClusterDoc = "def-456".
Proof.
  apply any_cluster_may_be_picked. simpl.
  rewrite lookup_insert_ne, lookup_singleton_eq by done. by eexists.
Defined.

Lemma no_cluster_same_witness :
  rewriteIdentity (canonicalOrder string) "mycluster" noClusterDoc = noClusterDoc.
Proof. by apply no_cluster_document_unchanged. Defined.

(** ** The discovery pass, continued *)

Lemma recordAll_lookup_Some (entries : list (Zone.t * SKSCluster.t))
    (index : gmap string ExoscaleKube.t) (id : string) (e : ExoscaleKube.t) :
  recordAll entries index !! id = Some e →
  index !! id = Some e
  ∨ ∃ zone cluster, (zone, cluster) ∈ entries
                    ∧ SKSCluster.ID cluster = id
                    ∧ e = discoveredKube zone cluster.
Proof.
  revert index. induction entries as [|[z c] rest IH]; intros index; simpl.
  - by left.
  - intros [Hin|(zone & cluster & Hin & Hid & He)]%IH.
    + apply lookup_insert_Some in Hin as [[<- <-]|[_ Hin]]; [|by left].
      right. exists z, c. split; [by left|done].
    + right. exists zone, cluster. split; [by right|done].
Qed.

Lemma recordAll_is_Some (entries : list (Zone.t * SKSCluster.t))
    (index : gmap string ExoscaleKube.t) (id : string) :
  is_Some (index !! id) → is_Some (recordAll entries index !! id).
Proof.
  revert index. induction entries as [|[z c] rest IH]; intros index Hid; [done|].
  simpl. apply IH. destruct (decide (SKSCluster.ID c = id)) as [->|Hne].
  - rewrite lookup_insert_eq. by eexists.
  - by rewrite lookup_insert_ne.
Qed.

(** Recording a list of clusters lays their entries over the index. *)
Lemma recordAll_union (entries : list (Zone.t * SKSCluster.t))
    (index : gmap string ExoscaleKube.t) :
  recordAll entries index = recordAll entries ∅ ∪ index.
Proof.
  revert index. induction entries as [|[z c] rest IH]; intros index; simpl.
  - by rewrite (left_id_L ∅ (∪)).
  - rewrite IH, (IH (<[_ := _]> ∅)), insert_empty.
    by rewrite <- (assoc_L (∪)), <- insert_union_singleton_l.
Qed.

Lemma recordAll_twice (entries : list (Zone.t * SKSCluster.t))
    (index : gmap string ExoscaleKube.t) :
  recordAll entries (recordAll entries index) = recordAll entries index.
Proof.
  rewrite (recordAll_union entries (recordAll entries index)).
  rewrite (recordAll_union entries index).
  by rewrite (assoc_L (∪)), (idemp_L (∪)).
Qed.

Section SearchMore.
Context {World Err : Type}.
Variable api : API World Err.

Lemma foldl_searchZone_sent (zones : list Zone.t) :
  ∀ (s : ExoscaleStore.t World Err) (channel : list (SearchResult.t Err)),
    Client.sent (ExoscaleStore.Client (foldl (searchZone api) (s, channel) zones).1)
    = Client.sent (ExoscaleStore.Client s)
      ++ ((λ zone, ReqListSKSClusters (Zone.APIEndpoint zone)) <$> zones).
Proof.
  induction zones as [|zone rest IH]; intros s channel.
  - simpl. by rewrite app_nil_r.
  - simpl. unfold callListSKSClusters, send.
    destruct (ListSKSClusters api (Zone.APIEndpoint zone)
                (Client.remote (ExoscaleStore.Client s))) as [resp w'].
    destruct resp as [clusters|err]; [case_decide|].
    + rewrite IH. simpl. by rewrite <- app_assoc.
    + match goal with
      | |- context [foldl (recordCluster zone) ?acc clusters] =>
          pose proof (foldl_recordCluster zone clusters acc.1 acc.2) as Hinner;
          simpl in Hinner;
          destruct (foldl (recordCluster zone) acc clusters) as [s1 ch1]
      end.
      destruct Hinner as (_ & _ & Hcl & _). simpl in *.
      rewrite IH, Hcl. simpl. by rewrite <- app_assoc.
    + rewrite IH. simpl. by rewrite <- app_assoc.
Qed.

(** The index after a pass, whatever the zone listing answers. *)
Lemma StartSearch_index (s : ExoscaleStore.t World Err)
    (channel : list (SearchResult.t Err)) :
  ExoscaleStore.DiscoveredClusters (StartSearch api s channel).1
  = match ListZones api (Client.remote (ExoscaleStore.Client s)) with
    | (Ok zones, w') =>
        recordAll (listedClusters (listings api zones w'))
                  (ExoscaleStore.DiscoveredClusters s)
    | (Fail _, _) => ExoscaleStore.DiscoveredClusters s
    end.
Proof.
  destruct (ListZones api (Client.remote (ExoscaleStore.Client s)))
    as [[zones|err] w'] eqn:Hzones.
  - by destruct (StartSearch_zones api s channel zones w' Hzones) as (_ & -> & _).
  - unfold StartSearch, callListZones, send. simpl. by rewrite Hzones.
Qed.

(** The events of a pass, whatever the zone listing answers. *)
Lemma StartSearch_events (s : ExoscaleStore.t World Err)
    (channel : list (SearchResult.t Err)) :
  drop (length channel) (StartSearch api s channel).2
  = match ListZones api (Client.remote (ExoscaleStore.Client s)) with
    | (Ok zones, w') => uncurry found <$> listedClusters (listings api zones w')
    | (Fail err, _) => [SearchResult.Make "" (Some (ListZonesFailed err))]
    end.
Proof.
  destruct (ListZones api (Client.remote (ExoscaleStore.Client s)))
    as [[zones|err] w'] eqn:Hzones.
  - destruct (StartSearch_zones api s channel zones w' Hzones) as (-> & _ & _).
    by rewrite drop_app_length.
  - unfold StartSearch, callListZones, send. simpl. rewrite Hzones. simpl.
    by rewrite drop_app_length.
Qed.

(** X9. When the service has no zone, the pass sends no event, writes no
    warning and leaves the index alone; the zone listing is its one
    request. *)
Theorem no_zone_silent_pass (s : ExoscaleStore.t World Err)
    (channel : list (SearchResult.t Err)) (w' : World) :
  ListZones api (Client.remote (ExoscaleStore.Client s)) = (Ok [], w') →
  let after := StartSearch api s channel in
  after.2 = channel
  ∧ ExoscaleStore.DiscoveredClusters after.1 = ExoscaleStore.DiscoveredClusters s
  ∧ warnings (ExoscaleStore.Logger after.1) = warnings (ExoscaleStore.Logger s)
  ∧ Client.sent (ExoscaleStore.Client after.1)
    = Client.sent (ExoscaleStore.Client s) ++ [ReqListZones].
Proof.
  intros Hzones. unfold StartSearch, callListZones, send. simpl.
  rewrite Hzones. simpl. rewrite !warnings_app. simpl.
  by rewrite !app_nil_r.
Qed.

(** X10. A pass whose zone listing succeeds asks for the zones and then once for
    the clusters of each zone, at the endpoint of the zone and in the order
    of the zone listing, whether or not a listing before failed. *)
Theorem pass_lists_every_zone_once (s : ExoscaleStore.t World Err)
    (channel : list (SearchResult.t Err)) (zones : list Zone.t) (w' : World) :
  ListZones api (Client.remote (ExoscaleStore.Client s)) = (Ok zones, w') →
  Client.sent (ExoscaleStore.Client (StartSearch api s channel).1)
  = Client.sent (ExoscaleStore.Client s)
    ++ ReqListZones
       :: ((λ zone, ReqListSKSClusters (Zone.APIEndpoint zone)) <$> zones).
Proof.
  intros Hzones. unfold StartSearch, callListZones, send. simpl.
  rewrite Hzones. case_decide as Hlen.
  - apply length_zero_iff_nil in Hlen as ->. done.
  - rewrite foldl_searchZone_sent. simpl. by rewrite <- app_assoc.
Qed.

(** X11. A pass never removes an id from the index. *)
Theorem pass_keeps_ids (s : ExoscaleStore.t World Err)
    (channel : list (SearchResult.t Err)) (id : string) :
  is_Some (ExoscaleStore.DiscoveredClusters s !! id) →
  is_Some (ExoscaleStore.DiscoveredClusters (StartSearch api s channel).1 !! id).
Proof.
  intros Hid. rewrite StartSearch_index.
  destruct (ListZones api _) as [[zones|err] w']; [|done].
  by apply recordAll_is_Some.
Qed.

(** X12. An id that no cluster is listed with during a pass keeps its entry, also
    when the cluster is gone from the service. *)
Theorem pass_keeps_stale_entries (s : ExoscaleStore.t World Err)
    (channel : list (SearchResult.t Err)) (zones : list Zone.t) (w' : World)
    (id : string) :
  ListZones api (Client.remote (ExoscaleStore.Client s)) = (Ok zones, w') →
  Forall (λ entry, SKSCluster.ID entry.2 ≠ id)
         (listedClusters (listings api zones w')) →
  ExoscaleStore.DiscoveredClusters (StartSearch api s channel).1 !! id
  = ExoscaleStore.DiscoveredClusters s !! id.
Proof.
  intros Hzones Hother. rewrite StartSearch_index, Hzones.
  by apply recordAll_lookup_other.
Qed.

(** X13. When every entry of the index is kept under its own id, so is every
    entry of the index after a pass. *)
Theorem pass_keeps_entries_under_their_id (s : ExoscaleStore.t World Err)
    (channel : list (SearchResult.t Err)) :
  (∀ id e, ExoscaleStore.DiscoveredClusters s !! id = Some e →
           ExoscaleKube.ID e = id) →
  ∀ id e,
    ExoscaleStore.DiscoveredClusters (StartSearch api s channel).1 !! id = Some e →
    ExoscaleKube.ID e = id.
Proof.
  intros Hkeyed id e. rewrite StartSearch_index.
  destruct (ListZones api _) as [[zones|err] w']; [|by apply Hkeyed].
  intros [Hold|(zone & cluster & _ & <- & ->)]%recordAll_lookup_Some.
  - by apply Hkeyed.
  - done.
Qed.

(** X14. An entry of the index after a pass was in the index before, or the pass
    has sent the success event of its path [zone/name]. *)
Theorem new_entries_have_an_event (s : ExoscaleStore.t World Err)
    (channel : list (SearchResult.t Err)) (id : string) (e : ExoscaleKube.t) :
  ExoscaleStore.DiscoveredClusters (StartSearch api s channel).1 !! id = Some e →
  ExoscaleStore.DiscoveredClusters s !! id = Some e
  ∨ SearchResult.Make (ExoscaleKube.ZoneName e +:+ "/" +:+ ExoscaleKube.Name e) None
    ∈ drop (length channel) (StartSearch api s channel).2.
Proof.
  rewrite StartSearch_index, StartSearch_events.
  destruct (ListZones api _) as [[zones|err] w']; [|by left].
  intros [Hold|(zone & cluster & Hin & _ & ->)]%recordAll_lookup_Some; [by left|].
  right. apply list_elem_of_fmap. by exists (zone, cluster).
Qed.

(** X15. A second pass that gets the answers of the first leaves the index of
    the first, and sends the events of the first once more. *)
Theorem second_pass_same_index (s : ExoscaleStore.t World Err)
    (channel : list (SearchResult.t Err)) (zones : list Zone.t) (w1 w2 : World) :
  let first := StartSearch api s channel in
  let second := StartSearch api first.1 first.2 in
  ListZones api (Client.remote (ExoscaleStore.Client s)) = (Ok zones, w1) →
  ListZones api (Client.remote (ExoscaleStore.Client first.1)) = (Ok zones, w2) →
  listings api zones w2 = listings api zones w1 →
  ExoscaleStore.DiscoveredClusters second.1 = ExoscaleStore.DiscoveredClusters first.1
  ∧ second.2 = first.2 ++ drop (length channel) first.2.
Proof.
  intros first second H1 H2 Hsame. unfold second.
  destruct (StartSearch_zones api first.1 first.2 zones w2 H2) as (Hch2 & Hidx2 & _).
  simpl in Hch2, Hidx2. rewrite Hch2, Hidx2, Hsame. unfold first.
  rewrite StartSearch_events, StartSearch_index, H1.
  split; [apply recordAll_twice|done].
Qed.
End SearchMore.

(** *** Passes against the concrete services, continued *)

Lemma no_zone_silent_witness :
  let after := StartSearch noZoneAPI newStore [] in
  after.2 = []
  ∧ ExoscaleStore.DiscoveredClusters after.1 = ∅
  ∧ warnings (ExoscaleStore.Logger after.1) = []
  ∧ Client.sent (ExoscaleStore.Client after.1) = [ReqListZones].
Proof. exact (no_zone_silent_pass noZoneAPI newStore [] 1 eq_refl). Defined.

Lemma pass_lists_every_zone_witness :
  Client.sent (ExoscaleStore.Client (StartSearch partialAPI newStore []).1)
  = [ReqListZones;
     ReqListSKSClusters "https://api-ch-gva-2.exoscale.com/v2";
     ReqListSKSClusters "https://api-de-fra-1.exoscale.com/v2"].
Proof.
  exact (pass_lists_every_zone_once partialAPI newStore [] [gva2; fra1] 1 eq_refl).
Defined.

Lemma staleStore_lookup_retired :
  ExoscaleStore.DiscoveredClusters staleStore !! "id-9"
  = Some (ExoscaleKube.Make "id-9" "retired" (Zone.Name fra1) (Zone.APIEndpoint fra1)).
Proof. simpl. by rewrite lookup_insert_ne, lookup_singleton_eq. Qed.

Lemma pass_keeps_ids_witness :
  is_Some (ExoscaleStore.DiscoveredClusters (StartSearch healthyAPI staleStore []).1
             !! "id-9").
Proof.
  apply pass_keeps_ids. rewrite staleStore_lookup_retired. by eexists.
Defined.

Lemma pass_keeps_stale_witness :
  ExoscaleStore.DiscoveredClusters (StartSearch healthyAPI staleStore []).1 !! "id-9"
  = ExoscaleStore.DiscoveredClusters staleStore !! "id-9".
Proof.
  apply (pass_keeps_stale_entries healthyAPI staleStore [] [gva2; fra1] 1).
  - reflexivity.
  - by repeat constructor.
Defined.

Lemma pass_keeps_entries_under_their_id_witness :
  ExoscaleKube.ID (ExoscaleKube.Make "id-2" "prod" (Zone.Name fra1)
                     (Zone.APIEndpoint fra1))
  = "id-2".
Proof.
  apply (pass_keeps_entries_under_their_id healthyAPI staleStore []).
  - intros id e. simpl.
    intros [[<- <-]|[_ [<- <-]%lookup_singleton_Some]]%lookup_insert_Some; done.
  - vm_compute. reflexivity.
Defined.

Lemma new_entries_witness :
  ExoscaleStore.DiscoveredClusters newStore !! "id-2"
  = Some (ExoscaleKube.Make "id-2" "prod" (Zone.Name fra1) (Zone.APIEndpoint fra1))
  ∨ SearchResult.Make "de-fra-1/prod" None
    ∈ drop (length ([] : list (SearchResult.t string)))
           (StartSearch healthyAPI newStore []).2.
Proof.
  apply (new_entries_have_an_event healthyAPI newStore [] "id-2"
           (ExoscaleKube.Make "id-2" "prod" (Zone.Name fra1) (Zone.APIEndpoint fra1))).
  vm_compute. reflexivity.
Defined.

Lemma second_pass_witness :
  let first := StartSearch healthyAPI newStore [] in
  let second := StartSearch healthyAPI first.1 first.2 in
  ExoscaleStore.DiscoveredClusters second.1 = ExoscaleStore.DiscoveredClusters first.1
  ∧ second.2 = first.2 ++ drop (length ([] : list (SearchResult.t string))) first.2.
Proof.
  apply (second_pass_same_index healthyAPI newStore [] [gva2; fra1] 1 4);
    reflexivity.
Defined.

(** ** Paths, continued *)

Lemma cut_join (sep : ascii) (zone name : string) :
  countSep sep zone = 0 → cut sep (zone +:+ String sep name) = Some (zone, name).
Proof.
  induction zone as [|c rest IH]; simpl.
  - intros _. by rewrite Ascii.eqb_refl.
  - destruct (Ascii.eqb c sep); [done|]. simpl. intros Hrest. by rewrite IH.
Qed.

Lemma cut_Some (sep : ascii) (s zone name : string) :
  cut sep s = Some (zone, name) →
  s = zone +:+ String sep name ∧ countSep sep zone = 0.
Proof.
  revert zone. induction s as [|c rest IH]; intros zone; simpl; [done|].
  destruct (Ascii.eqb c sep) eqn:Hc.
  - intros [= <- <-]. apply Ascii.eqb_eq in Hc as ->. done.
  - destruct (cut sep rest) as [[before after]|]; [|done].
    intros [= <- <-]. destruct (IH before eq_refl) as [-> Hzero].
    simpl. by rewrite Hc.
Qed.

(** X16. A path is split into a zone and a name exactly when it is the zone, a
    separator and the name, with no separator in the zone; the name may hold
    separators. *)
Theorem cut_iff_join (path zone name : string) :
  cut "/" path = Some (zone, name)
  ↔ path = zone +:+ "/" +:+ name ∧ countSep "/" zone = 0.
Proof.
  split.
  - apply cut_Some.
  - intros [-> Hzone]. by apply cut_join.
Qed.

Lemma SplitN_nonempty (s : string) (sep : ascii) (n : nat) :
  SplitN s sep (S n) ≠ [].
Proof.
  destruct n as [|n]; [done|].
  simpl. by destruct (cut sep s) as [[before after]|].
Qed.

Lemma concat_cons (sep piece : string) (pieces : list string) :
  pieces ≠ [] →
  String.concat sep (piece :: pieces) = piece +:+ sep +:+ String.concat sep pieces.
Proof. by destruct pieces. Qed.

Lemma countSep_join (sep : ascii) (zone name : string) :
  countSep sep (zone +:+ String sep name)
  = countSep sep zone + S (countSep sep name).
Proof.
  induction zone as [|c zone IH]; simpl; [by rewrite Ascii.eqb_refl|].
  rewrite IH. lia.
Qed.

(** X17. The pieces of [SplitN], joined by the separator, are the string that
    was split; there are at most [n] of them, and at most one more than
    there are separators in the string. *)
Theorem SplitN_join (s : string) (sep : ascii) (n : nat) :
  n ≠ 0 →
  String.concat (String sep "") (SplitN s sep n) = s
  ∧ (length (SplitN s sep n) ≤ n)%nat
  ∧ (length (SplitN s sep n) ≤ S (countSep sep s))%nat.
Proof.
  revert s. induction n as [|n IH]; intros s Hn; [done|].
  destruct n as [|n]; [simpl; split; [done|split; lia]|].
  change (SplitN s sep (S (S n)))
    with (match cut sep s with
          | None => [s]
          | Some (before, after) => before :: SplitN after sep (S n)
          end).
  destruct (cut sep s) as [[before after]|] eqn:Hcut.
  - destruct (IH after) as (Hjoin & Hlen & Hcount); [done|].
    apply cut_Some in Hcut as [-> Hzero].
    rewrite concat_cons by apply SplitN_nonempty.
    rewrite Hjoin, countSep_join, !length_cons.
    split; [reflexivity|split; lia].
  - simpl. split; [done|split; lia].
Qed.

(** ** The credential lookup, continued *)

Lemma findMatch_range_Some (order : RangeOrder ExoscaleKube.t)
    (index : gmap string ExoscaleKube.t) (zoneName clusterName : string)
    (matched : ExoscaleKube.t) :
  findMatch zoneName clusterName (order index) = Some matched →
  (∃ id, index !! id = Some matched)
  ∧ ExoscaleKube.ZoneName matched = zoneName
  ∧ ExoscaleKube.Name matched = clusterName.
Proof.
  intros ([id Hin] & Hzone & Hname)%findMatch_Some. split; [|done].
  exists id. rewrite range_perm in Hin. by apply elem_of_map_to_list.
Qed.

Lemma findMatch_range_None (order : RangeOrder ExoscaleKube.t)
    (index : gmap string ExoscaleKube.t) (zoneName clusterName : string) :
  findMatch zoneName clusterName (order index) = None
  ↔ ∀ id e, index !! id = Some e →
      ¬ (ExoscaleKube.ZoneName e = zoneName ∧ ExoscaleKube.Name e = clusterName).
Proof.
  split.
  - intros Hnone id e Hin. eapply (findMatch_None _ _ _ Hnone id).
    rewrite range_perm. by apply elem_of_map_to_list.
  - intros Hno. destruct (findMatch _ _ _) as [matched|] eqn:Hfind; [|done].
    apply findMatch_range_Some in Hfind as ([id Hin] & Hzone & Hname).
    by destruct (Hno id matched Hin).
Qed.

Section LookupMore.
Context {World Err C A P Ext : Type}.
Variable api : API World Err.
Variable codec : Codec Err C A P Ext.
Variable rangeIndex : RangeOrder ExoscaleKube.t.
Variable rangeClusters : RangeOrder C.

Abbreviation resolve :=
  (GetKubeconfigForPath api codec rangeIndex rangeClusters).

Lemma materialize_not_not_found (path clusterName p : string)
    (resp : result Err string) :
  materialize codec rangeClusters path clusterName resp ≠ Fail (ClusterNotFound p).
Proof.
  unfold materialize. destruct resp as [payload|err]; simpl; [|done].
  destruct (DecodeString codec payload) as [raw|err]; simpl; [|done].
  destruct (Load codec raw) as [cfg|err]; simpl; [|done].
  by destruct (Write codec _).
Qed.

(** X18. The lookup fails with the not-found error, naming the path, exactly
    when the path has a separator and no entry of the index has the zone
    before the first separator and the name after it. *)
Theorem cluster_not_found_iff (path : string) (extra : gmap string string)
    (s : ExoscaleStore.t World Err) :
  ((resolve path extra s).1 = Fail (ClusterNotFound path)
   ↔ ∃ zoneName clusterName,
       cut "/" path = Some (zoneName, clusterName)
       ∧ ∀ id e, ExoscaleStore.DiscoveredClusters s !! id = Some e →
           ¬ (ExoscaleKube.ZoneName e = zoneName
              ∧ ExoscaleKube.Name e = clusterName))
  ∧ (∀ p, (resolve path extra s).1 = Fail (ClusterNotFound p) → p = path).
Proof.
  destruct (cut "/" path) as [[zoneName clusterName]|] eqn:Hcut.
  - rewrite (GetKubeconfigForPath_split _ _ _ _ _ _ _ _ _ Hcut).
    destruct (findMatch _ _ _) as [matched|] eqn:Hfind.
    + destruct (callGenerateSKSClusterKubeconfig _ _ _ _ _) as [resp client].
      simpl. split; [split|].
      * intros Hfail. by apply materialize_not_not_found in Hfail.
      * intros (z & n & [= <- <-] & Hno).
        apply (findMatch_range_None rangeIndex) in Hno. congruence.
      * intros p Hfail. by apply materialize_not_not_found in Hfail.
    + simpl. split; [split; [|done]|by intros p [= ->]].
      intros _. exists zoneName, clusterName. split; [done|].
      by apply (findMatch_range_None rangeIndex).
  - rewrite (GetKubeconfigForPath_no_separator _ _ _ _ _ _ _ Hcut). simpl.
    split; [split; [done|]|done].
    by intros (z & n & ? & _).
Qed.

(** X19. A lookup that fails on the path or on the index leaves the whole store
    as it was: no request is sent. *)
Theorem failed_resolution_leaves_store (path p : string)
    (extra : gmap string string) (s : ExoscaleStore.t World Err) :
  (resolve path extra s).1 = Fail (MalformedPath p)
  ∨ (resolve path extra s).1 = Fail (ClusterNotFound p) →
  (resolve path extra s).2 = s.
Proof.
  destruct (cut "/" path) as [[zoneName clusterName]|] eqn:Hcut.
  - rewrite (GetKubeconfigForPath_split _ _ _ _ _ _ _ _ _ Hcut).
    destruct (findMatch _ _ _) as [matched|]; [|done].
    destruct (callGenerateSKSClusterKubeconfig _ _ _ _ _) as [resp client].
    simpl. intros [Hfail|Hfail].
    + by apply materialize_not_malformed in Hfail.
    + by apply materialize_not_not_found in Hfail.
  - by rewrite (GetKubeconfigForPath_no_separator _ _ _ _ _ _ _ Hcut).
Qed.

(** X20. A lookup writes nothing to the log, and sends no request or one, which
    asks to generate a kubeconfig for the group [system:masters], the user
    [default] and 2592000 seconds. *)
Theorem lookup_sends_at_most_one_request (path : string)
    (extra : gmap string string) (s : ExoscaleStore.t World Err) :
  let after := (resolve path extra s).2 in
  ExoscaleStore.Logger after = ExoscaleStore.Logger s
  ∧ (Client.sent (ExoscaleStore.Client after) = Client.sent (ExoscaleStore.Client s)
     ∨ ∃ endpoint id,
         Client.sent (ExoscaleStore.Client after)
         = Client.sent (ExoscaleStore.Client s)
           ++ [ReqGenerateSKSClusterKubeconfig endpoint id
                 (SKSKubeconfigRequest.Make ["system:masters"] "default" 2592000)]).
Proof.
  unfold GetKubeconfigForPath.
  destruct (SplitN path "/" 2) as [|zoneName [|clusterName [|? ?]]];
    try (split; [done|by left]).
  destruct (findMatch _ _ _) as [matched|]; [|split; [done|by left]].
  unfold callGenerateSKSClusterKubeconfig, send.
  destruct (GenerateSKSClusterKubeconfig _ _ _ _ _) as [resp w'].
  split; [done|]. right. by eexists _, _.
Qed.

(** X21. When the lookup returns bytes, every step has succeeded: the path has a
    separator, an entry of the index has the zone and the name, the service
    has answered the request for that entry with a payload, the payload
    was decoded and read, and the bytes are those written for the document
    renamed to the name after the first separator. *)
Theorem lookup_success_sound (path bytes : string) (extra : gmap string string)
    (s : ExoscaleStore.t World Err) :
  (resolve path extra s).1 = Ok bytes →
  ∃ zoneName clusterName id matched payload w' raw cfg,
    cut "/" path = Some (zoneName, clusterName)
    ∧ ExoscaleStore.DiscoveredClusters s !! id = Some matched
    ∧ ExoscaleKube.ZoneName matched = zoneName
    ∧ ExoscaleKube.Name matched = clusterName
    ∧ GenerateSKSClusterKubeconfig api
        (ExoscaleKube.ZoneEndpoint matched) (ExoscaleKube.ID matched)
        (SKSKubeconfigRequest.Make ["system:masters"] "default" 2592000)
        (Client.remote (ExoscaleStore.Client s))
      = (Ok payload, w')
    ∧ DecodeString codec payload = Ok raw
    ∧ Load codec raw = Ok cfg
    ∧ Write codec (rewriteIdentity rangeClusters clusterName cfg) = Ok bytes.
Proof.
  destruct (cut "/" path) as [[zoneName clusterName]|] eqn:Hcut.
  - rewrite (GetKubeconfigForPath_split _ _ _ _ _ _ _ _ _ Hcut).
    destruct (findMatch _ _ _) as [matched|] eqn:Hfind; [|done].
    apply findMatch_range_Some in Hfind as ([id Hin] & Hzone & Hname).
    unfold callGenerateSKSClusterKubeconfig, send.
    destruct (GenerateSKSClusterKubeconfig _ _ _ _ _) as [resp w'] eqn:Hcall.
    simpl. intros (payload & raw & cfg & -> & Hdec & Hload & Hwrite)%materialize_Ok.
    by exists zoneName, clusterName, id, matched, payload, w', raw, cfg.
  - by rewrite (GetKubeconfigForPath_no_separator _ _ _ _ _ _ _ Hcut).
Qed.

(** X22. An error of the lookup tells the step that failed: a generation error
    wraps the failure of the service and names the path, a decoding error
    wraps the failure of the decoder and names the path, a parse error wraps
    the failure of [clientcmd.Load], a serialization error that of
    [clientcmd.Write]; a lookup never reports a zone-listing error. *)
Theorem lookup_errors_sound (path : string) (extra : gmap string string)
    (s : ExoscaleStore.t World Err) :
  let outcome := (resolve path extra s).1 in
  (∀ p e, outcome = Fail (CredentialGenerationFailed p e) →
     p = path
     ∧ ∃ endpoint id w',
         GenerateSKSClusterKubeconfig api endpoint id kubeconfigRequest
           (Client.remote (ExoscaleStore.Client s)) = (Fail e, w'))
  ∧ (∀ p e, outcome = Fail (DecodeFailed p e) →
       p = path ∧ ∃ payload, DecodeString codec payload = Fail e)
  ∧ (∀ e, outcome = Fail (ParseFailed e) → ∃ raw, Load codec raw = Fail e)
  ∧ (∀ e, outcome = Fail (SerializeFailed e) → ∃ cfg, Write codec cfg = Fail e)
  ∧ (∀ e, outcome ≠ Fail (ListZonesFailed e)).
Proof.
  assert (Hsplit : ∀ P1 P2 P3 P4 P5 : Prop,
             P1 → P2 → P3 → P4 → P5 → P1 ∧ P2 ∧ P3 ∧ P4 ∧ P5) by tauto.
  destruct (cut "/" path) as [[zoneName clusterName]|] eqn:Hcut.
  - rewrite (GetKubeconfigForPath_split _ _ _ _ _ _ _ _ _ Hcut).
    destruct (findMatch _ _ _) as [matched|]; [|by apply Hsplit].
    unfold callGenerateSKSClusterKubeconfig, send.
    destruct (GenerateSKSClusterKubeconfig _ _ _ _ _) as [resp w'] eqn:Hcall.
    simpl. unfold materialize.
    destruct resp as [payload|err]; simpl.
    + destruct (DecodeString codec payload) as [raw|err] eqn:Hdec; simpl.
      * destruct (Load codec raw) as [cfg|err] eqn:Hload; simpl.
        -- destruct (Write codec _) as [written|err] eqn:Hwrite; simpl;
             apply Hsplit; try done.
           intros e [= <-]. by eexists.
        -- apply Hsplit; try done. intros e [= <-]. by eexists.
      * apply Hsplit; try done. intros p e [= <- <-]. split; [done|by eexists].
    + apply Hsplit; try done.
      intros p e [= <- <-]. split; [done|by eexists _, _, _].
  - rewrite (GetKubeconfigForPath_no_separator _ _ _ _ _ _ _ Hcut).
    by apply Hsplit.
Qed.
End LookupMore.

Section LookupCompose.
Context {World Err C A P Ext : Type}.
Variable api : API World Err.
Variable codec : Codec Err C A P Ext.
Variable rangeClusters : RangeOrder C.


Variable rangeIndex : RangeOrder ExoscaleKube.t.

(** X24. A path sent by a pass is resolved by a lookup that follows it: when
    the zone name has no separator and no cluster listed later has the id
    of the cluster, the pass has sent the event of [zone/name], and the
    lookup of [zone/name] in the store after the pass sends one generation
    request, for an entry of the index with that zone and that name. *)
Theorem discovered_path_resolves (s : ExoscaleStore.t World Err)
    (channel : list (SearchResult.t Err)) (zones : list Zone.t) (w' : World)
    (before after : list (Zone.t * SKSCluster.t))
    (zone : Zone.t) (cluster : SKSCluster.t) (extra : gmap string string) :
  ListZones api (Client.remote (ExoscaleStore.Client s)) = (Ok zones, w') →
  listedClusters (listings api zones w') = before ++ (zone, cluster) :: after →
  Forall (λ later, SKSCluster.ID later.2 ≠ SKSCluster.ID cluster) after →
  countSep "/" (Zone.Name zone) = 0 →
  let searched := StartSearch api s channel in
  let path := Zone.Name zone +:+ "/" +:+ SKSCluster.Name cluster in
  SearchResult.Make path None ∈ searched.2
  ∧ ∃ id matched,
      ExoscaleStore.DiscoveredClusters searched.1 !! id = Some matched
      ∧ ExoscaleKube.ZoneName matched = Zone.Name zone
      ∧ ExoscaleKube.Name matched = SKSCluster.Name cluster
      ∧ Client.sent (ExoscaleStore.Client
          (GetKubeconfigForPath api codec rangeIndex rangeClusters
             path extra searched.1).2)
        = Client.sent (ExoscaleStore.Client searched.1)
          ++ [ReqGenerateSKSClusterKubeconfig
                (ExoscaleKube.ZoneEndpoint matched) (ExoscaleKube.ID matched)
                (SKSKubeconfigRequest.Make ["system:masters"] "default" 2592000)].
Proof.
  intros Hzones Hentries Hlast Hzone searched path.
  destruct (StartSearch_zones api s channel zones w' Hzones) as (Hch & Hidx & _).
  fold searched in Hch, Hidx. rewrite Hentries in Hch, Hidx. split.
  - rewrite Hch. apply elem_of_app. right.
    apply list_elem_of_fmap. exists (zone, cluster). split; [done|].
    apply elem_of_app. right. by left.
  - assert (Hcut : cut "/" path = Some (Zone.Name zone, SKSCluster.Name cluster))
      by by apply cut_join.
    rewrite (GetKubeconfigForPath_split _ _ _ _ _ _ _ _ _ Hcut).
    destruct (findMatch _ _ _) as [matched|] eqn:Hfind.
    + apply findMatch_range_Some in Hfind as ([id Hin] & Hz & Hn).
      exists id, matched. repeat split; try done.
      unfold callGenerateSKSClusterKubeconfig, send.
      by destruct (GenerateSKSClusterKubeconfig _ _ _ _ _).
    + exfalso. rewrite findMatch_range_None in Hfind.
      apply (Hfind (SKSCluster.ID cluster) (discoveredKube zone cluster)); [|done].
      rewrite Hidx. by apply recordAll_lookup_last.
Qed.
End LookupCompose.

(** ** Construction and identity *)

Lemma append_inj_r (prefix a b : string) : prefix +:+ a = prefix +:+ b → a = b.
Proof. induction prefix as [|c prefix IH]; simpl; [done|]. intros [= ?]. auto. Qed.

Lemma length_zero_empty (s : string) : String.length s = 0 ↔ s = "".
Proof. by destruct s. Qed.

Section ConstructionFacts.
Context {World Err Raw : Type}.
Variable setup : Setup World Err Raw.
Variable StoreKindExoscale : string.

Lemma NewExoscaleStore_Ok_inv (store store' : KubeconfigStore.t Raw)
    (s : ExoscaleStore.t World Err) :
  NewExoscaleStore setup store = Ok (store', s) →
  store' = store
  ∧ ∃ config buf apiKey secretKey client,
      KubeconfigStore.Config store = Some config
      ∧ Marshal setup config = Ok buf
      ∧ Unmarshal setup buf = Ok (StoreConfigExoscale.Make apiKey secretKey)
      ∧ apiKey ≠ "" ∧ secretKey ≠ ""
      ∧ NewClient setup apiKey secretKey = Ok client
      ∧ s = ExoscaleStore.Make [] (Client.Make client []) ∅.
Proof.
  unfold NewExoscaleStore, readStoreConfig.
  destruct (KubeconfigStore.Config store) as [config|]; [|done]. simpl.
  destruct (Marshal setup config) as [buf|err] eqn:Hbuf; [|done]. simpl.
  destruct (Unmarshal setup buf) as [[apiKey secretKey]|err] eqn:Hcfg; [|done].
  simpl. case_decide as Hapi; [done|]. case_decide as Hsecret; [done|].
  destruct (NewClient setup apiKey secretKey) as [client|err] eqn:Hclient; [|done].
  simpl. intros [= <- <-]. split; [done|].
  exists config, buf, apiKey, secretKey, client.
  rewrite length_zero_empty in Hapi, Hsecret. repeat split; done.
Qed.

(** X25. [NewExoscaleStore] returns a store exactly when the configuration is
    present, is marshalled and unmarshalled without error, holds an API key
    and a secret key that are not empty, and the client is made from these
    two keys; the store has the configuration it was given, an empty index,
    an empty log and a client that has sent nothing. *)
Theorem NewExoscaleStore_Ok_iff (store store' : KubeconfigStore.t Raw)
    (s : ExoscaleStore.t World Err) :
  NewExoscaleStore setup store = Ok (store', s)
  ↔ store' = store
    ∧ ∃ config buf apiKey secretKey client,
        KubeconfigStore.Config store = Some config
        ∧ Marshal setup config = Ok buf
        ∧ Unmarshal setup buf = Ok (StoreConfigExoscale.Make apiKey secretKey)
        ∧ apiKey ≠ "" ∧ secretKey ≠ ""
        ∧ NewClient setup apiKey secretKey = Ok client
        ∧ s = ExoscaleStore.Make [] (Client.Make client []) ∅.
Proof.
  split; [apply NewExoscaleStore_Ok_inv|].
  unfold NewExoscaleStore, readStoreConfig.
  intros (-> & config & buf & apiKey & secretKey & client
          & -> & Hbuf & Hcfg & Hapi & Hsecret & Hclient & ->).
  simpl. rewrite Hbuf. simpl. rewrite Hcfg. simpl.
  rewrite <- length_zero_empty in Hapi, Hsecret.
  rewrite decide_False, decide_False, Hclient by done. done.
Qed.

(** X26. Without a configuration the store is refused for its missing API key.
    With one, the API key is looked at first: when it is empty the store is
    refused for it, whatever the secret key; when only the secret key is
    empty the store is refused for the secret key. *)
Theorem NewExoscaleStore_missing_keys (store : KubeconfigStore.t Raw) :
  (KubeconfigStore.Config store = None →
   NewExoscaleStore setup store = Fail MissingAPIKey)
  ∧ ∀ config buf apiKey secretKey,
      KubeconfigStore.Config store = Some config →
      Marshal setup config = Ok buf →
      Unmarshal setup buf = Ok (StoreConfigExoscale.Make apiKey secretKey) →
      (apiKey = "" → NewExoscaleStore setup store = Fail MissingAPIKey)
      ∧ (apiKey ≠ "" → secretKey = "" →
         NewExoscaleStore setup store = Fail MissingSecretKey).
Proof.
  unfold NewExoscaleStore, readStoreConfig. split.
  - by intros ->.
  - intros config buf apiKey secretKey -> Hbuf Hcfg. simpl.
    rewrite Hbuf. simpl. rewrite Hcfg. simpl. split.
    + by intros ->.
    + intros Hapi ->. rewrite <- length_zero_empty in Hapi.
      by rewrite decide_False.
Qed.

(** X27. Two stores have the same identifier exactly when their configured ids
    are the same, an id that is not configured counting as [default]. *)
Theorem GetID_eq_iff (store1 store2 : KubeconfigStore.t Raw) :
  GetID StoreKindExoscale store1 = GetID StoreKindExoscale store2
  ↔ default "default" (KubeconfigStore.ID store1)
    = default "default" (KubeconfigStore.ID store2).
Proof.
  unfold GetID. split.
  - intros Heq. apply (append_inj_r StoreKindExoscale) in Heq.
    simpl in Heq. injection Heq as Heq.
    by destruct (KubeconfigStore.ID store1), (KubeconfigStore.ID store2).
  - destruct (KubeconfigStore.ID store1), (KubeconfigStore.ID store2);
      simpl; congruence.
Qed.

(** The context prefix is empty only when it is switched off, when the
    configured id is empty, or when no id is configured and the kind is
    empty. *)
Lemma GetContextPrefix_empty_iff (store : KubeconfigStore.t Raw) (path : string) :
  GetContextPrefix StoreKindExoscale store path = ""
  ↔ KubeconfigStore.ShowPrefix store = Some false
    ∨ KubeconfigStore.ID store = Some ""
    ∨ (KubeconfigStore.ID store = None ∧ StoreKindExoscale = "").
Proof.
  unfold GetContextPrefix.
  destruct (KubeconfigStore.ShowPrefix store) as [[|]|],
    (KubeconfigStore.ID store) as [configured|]; intuition congruence.
Qed.
End ConstructionFacts.

(** X28. A store that was just constructed resolves no path: the lookup fails on
    the path or reports that no cluster was found, and sends nothing. *)
Theorem fresh_store_resolves_nothing {World Err Raw C A P Ext : Type}
    (setup : Setup World Err Raw) (api : API World Err)
    (codec : Codec Err C A P Ext)
    (rangeIndex : RangeOrder ExoscaleKube.t) (rangeClusters : RangeOrder C)
    (store store' : KubeconfigStore.t Raw) (s : ExoscaleStore.t World Err)
    (path : string) (extra : gmap string string) :
  NewExoscaleStore setup store = Ok (store', s) →
  GetKubeconfigForPath api codec rangeIndex rangeClusters path extra s
  = (Fail (MalformedPath path), s)
  ∨ GetKubeconfigForPath api codec rangeIndex rangeClusters path extra s
    = (Fail (ClusterNotFound path), s).
Proof.
  intros (_ & _ & _ & _ & _ & client & _ & _ & _ & _ & _ & _ & ->)%NewExoscaleStore_Ok_inv.
  destruct (cut "/" path) as [[zoneName clusterName]|] eqn:Hcut.
  - right. rewrite (GetKubeconfigForPath_split _ _ _ _ _ _ _ _ _ Hcut).
    simpl. assert (rangeIndex ∅ = []) as ->; [|done].
    apply Permutation_nil_r. by rewrite range_perm, map_to_list_empty.
  - left. by apply GetKubeconfigForPath_no_separator.
Qed.

(** *** Lookups and constructions against the concrete services *)

Lemma SplitN_join_witness :
  String.concat "/" (SplitN "ch-gva-2/team/prod" "/" 2) = "ch-gva-2/team/prod"
  ∧ (length (SplitN "ch-gva-2/team/prod" "/" 2) ≤ 2)%nat
  ∧ (length (SplitN "ch-gva-2/team/prod" "/" 2)
     ≤ S (countSep "/" "ch-gva-2/team/prod"))%nat.
Proof. by apply (SplitN_join "ch-gva-2/team/prod" "/" 2). Defined.

Lemma failed_resolution_witness :
  (GetKubeconfigForPath healthyAPI plainCodec (canonicalOrder _) (canonicalOrder _)
     "onlyonesegment" ∅ prodStore).2
  = prodStore.
Proof.
  apply (failed_resolution_leaves_store healthyAPI plainCodec (canonicalOrder _)
           (canonicalOrder _) "onlyonesegment" "onlyonesegment").
  left. reflexivity.
Defined.

Lemma lookup_success_witness :
  ∃ zoneName clusterName id matched payload w' raw cfg,
    cut "/" "ch-gva-2/prod" = Some (zoneName, clusterName)
    ∧ ExoscaleStore.DiscoveredClusters prodStore !! id = Some matched
    ∧ ExoscaleKube.ZoneName matched = zoneName
    ∧ ExoscaleKube.Name matched = clusterName
    ∧ GenerateSKSClusterKubeconfig healthyAPI
        (ExoscaleKube.ZoneEndpoint matched) (ExoscaleKube.ID matched)
        (SKSKubeconfigRequest.Make ["system:masters"] "default" 2592000)
        (Client.remote (ExoscaleStore.Client prodStore))
      = (Ok payload, w')
    ∧ DecodeString plainCodec payload = Ok raw
    ∧ Load plainCodec raw = Ok cfg
    ∧ Write plainCodec (rewriteIdentity (canonicalOrder _) clusterName cfg)
      = Ok "prod".
Proof.
  apply (lookup_success_sound healthyAPI plainCodec (canonicalOrder _)
           (canonicalOrder _) "ch-gva-2/prod" "prod" ∅ prodStore).
  vm_compute. reflexivity.
Defined.


Lemma discovered_path_witness :
  let searched := StartSearch healthyAPI newStore [] in
  SearchResult.Make "de-fra-1/staging" None ∈ searched.2
  ∧ ∃ id matched,
      ExoscaleStore.DiscoveredClusters searched.1 !! id = Some matched
      ∧ ExoscaleKube.ZoneName matched = "de-fra-1"
      ∧ ExoscaleKube.Name matched = "staging"
      ∧ Client.sent (ExoscaleStore.Client
          (GetKubeconfigForPath healthyAPI plainCodec (canonicalOrder _)
             (canonicalOrder _) "de-fra-1/staging" ∅ searched.1).2)
        = Client.sent (ExoscaleStore.Client searched.1)
          ++ [ReqGenerateSKSClusterKubeconfig
                (ExoscaleKube.ZoneEndpoint matched) (ExoscaleKube.ID matched)
                (SKSKubeconfigRequest.Make ["system:masters"] "default" 2592000)].
Proof.
  apply (discovered_path_resolves healthyAPI plainCodec (canonicalOrder _)
           (canonicalOrder _) newStore [] [gva2; fra1] 1
           [(gva2, SKSCluster.Make "id-1" "prod");
            (fra1, SKSCluster.Make "id-2" "prod")] []
           fra1 (SKSCluster.Make "id-3" "staging") ∅).
  - reflexivity.
  - reflexivity.
  - constructor.
  - reflexivity.
Defined.

Lemma keysConfigured_constructed :
  NewExoscaleStore twoLineSetup keysConfigured = Ok (keysConfigured, newStore).
Proof. reflexivity. Qed.

Lemma fresh_store_witness :
  GetKubeconfigForPath healthyAPI plainCodec (canonicalOrder _) (canonicalOrder _)
    "ch-gva-2/prod" ∅ newStore
  = (Fail (MalformedPath "ch-gva-2/prod"), newStore)
  ∨ GetKubeconfigForPath healthyAPI plainCodec (canonicalOrder _) (canonicalOrder _)
      "ch-gva-2/prod" ∅ newStore
    = (Fail (ClusterNotFound "ch-gva-2/prod"), newStore).
Proof.
  apply (fresh_store_resolves_nothing twoLineSetup healthyAPI plainCodec
           (canonicalOrder _) (canonicalOrder _) keysConfigured keysConfigured).
  exact keysConfigured_constructed.
Defined.
